(** * elastinga: the search-resolution core ([elastinga/crud.py])

    A shallow embedding of [BaseSearch], [TwitterSearch] and
    [InstagramSearch], with the part of the [elasticsearch_dsl] client the
    methods go through ([Search], [Q], [Bool], [AttrDict], [AttrList],
    [Response]), and the properties of the escalation algorithm, the
    suggestion resolver, the result normalizer and the query builder. *)

From Stdlib Require Import String Ascii List ZArith Bool Lia.
Import ListNotations.
Open Scope string_scope.
Open Scope list_scope.
Open Scope Z_scope.

Set Warnings "-register-all".

(** ** Python values *)

(** The JSON-like values that travel through the code: request arguments,
    the mappings the engine answers with, and the serialized records.  A
    [dict] keeps its insertion order, so it is an association list with
    string keys.  A float is the dyadic [m * 2^e]. *)
Inductive pyval : Type :=
| PNone
| PBool (b : bool)
| PInt (n : Z)
| PFloat (m e : Z)
| PStr (s : string)
| PList (l : list pyval)
| PDict (d : list (string * pyval)).

Definition pydict : Type := list (string * pyval).

(** [bool(v)], the test behind [if v:]. *)
Definition truthy (v : pyval) : bool :=
  match v with
  | PNone => false
  | PBool b => b
  | PInt n => negb (n =? 0)
  | PFloat m _ => negb (m =? 0)
  | PStr s => negb (String.eqb s "")
  | PList l => match l with [] => false | _ :: _ => true end
  | PDict d => match d with [] => false | _ :: _ => true end
  end.

(** [v is not None] *)
Definition is_not_none (v : pyval) : bool :=
  match v with PNone => false | _ => true end.

(** [isinstance(v, str)] *)
Definition isinstance_str (v : pyval) : bool :=
  match v with PStr _ => true | _ => false end.

(** [v == s] for a string literal [s]: only a [str] with the same characters
    compares equal to it. *)
Definition py_eq_str (v : pyval) (s : string) : bool :=
  match v with PStr t => String.eqb t s | _ => false end.

(** [v in (s1, s2, ...)] for a tuple of string literals. *)
Definition py_in_strs (v : pyval) (ss : list string) : bool :=
  existsb (py_eq_str v) ss.

(** *** Dictionaries *)

Fixpoint dict_get (k : string) (d : pydict) : option pyval :=
  match d with
  | [] => None
  | (k', v) :: d' => if String.eqb k k' then Some v else dict_get k d'
  end.

Definition dict_has (k : string) (d : pydict) : bool :=
  match dict_get k d with Some _ => true | None => false end.

(** [d[k] = v]: an existing key keeps its place, a new one goes last. *)
Fixpoint dict_set (k : string) (v : pyval) (d : pydict) : pydict :=
  match d with
  | [] => [(k, v)]
  | (k', v') :: d' =>
      if String.eqb k k' then (k', v) :: d' else (k', v') :: dict_set k v d'
  end.

(** [d.update(u)] *)
Definition dict_update (u d : pydict) : pydict :=
  fold_left (fun acc kv => dict_set (fst kv) (snd kv) acc) u d.

Definition dict_keys (d : pydict) : list string := map fst d.

(** ** Exceptions and results *)

Inductive exn : Type :=
| ValueError (msg : string)
| NotImplementedError
| KeyError (key : string)
| IndexError
| TypeError (msg : string)
| AttributeError (attr : string)
| TransportError (status : Z).   (* elasticsearch.exceptions *)

Inductive result (A : Type) : Type :=
| Ok (a : A)
| Raise (e : exn).
Arguments Ok {A} a.
Arguments Raise {A} e.

Definition rbind {A B} (r : result A) (f : A -> result B) : result B :=
  match r with Ok a => f a | Raise e => Raise e end.

(** A list comprehension whose element expression may raise: elements are
    converted left to right and the first exception aborts the loop. *)
Fixpoint comprehension {A B} (f : A -> result B) (l : list A)
  : result (list B) :=
  match l with
  | [] => Ok []
  | x :: l' =>
      match f x with
      | Raise e => Raise e
      | Ok y =>
          match comprehension f l' with
          | Raise e => Raise e
          | Ok ys => Ok (y :: ys)
          end
      end
  end.

(** ** The [elasticsearch_dsl] client, as far as [crud.py] uses it *)

(** *** Queries: [Q(name, **params)] and [Bool]

    [crud.py] builds three leaf queries, [Q("multi_match", ...)],
    [Q("term", f=v)] and [Q("terms", f=v)], and [Search.filter] wraps a leaf
    in [Bool(filter=[leaf])].  A [Bool] carries its [must] and [filter]
    lists; [should] and [must_not] are never filled by this code and stay
    empty. *)
Inductive Query : Type :=
| MultiMatch (query : pyval) (operator : string) (fields : list string)
| Term (field : string) (value : pyval)
| Terms (field : string) (value : pyval)
| Bool (must filter : list Query).

(** The name the clause is serialized under: the operation kind. *)
Definition query_name (q : Query) : string :=
  match q with
  | MultiMatch _ _ _ => "multi_match"
  | Term _ _ => "term"
  | Terms _ _ => "terms"
  | Bool _ _ => "bool"
  end.

(** [Q(name, **{field: value})] for the two filter kinds [crud.py] names. *)
Definition Q_filter (name field : string) (value : pyval) : Query :=
  if String.eqb name "term" then Term field value else Terms field value.

(** [a & b].  [Bool.__and__] concatenates the lists of two [Bool]s and
    appends any other query to [must]; a leaf defers to the [__rand__] of a
    [Bool] on its right; two leaves give [Bool(must=[a, b])]. *)
Definition q_and (a b : Query) : Query :=
  match a, b with
  | Bool m f, Bool m' f' => Bool (m ++ m') (f ++ f')
  | Bool m f, _ => Bool (m ++ [b]) f
  | _, Bool m' f' => Bool (m' ++ [a]) f'
  | _, _ => Bool [a; b] []
  end.

(** The clauses of a query that score ([must], or the query itself when it
    is a leaf) and the clauses in filter context. *)
Definition must_clauses (q : Query) : list Query :=
  match q with Bool m _ => m | _ => [q] end.

Definition filter_clauses (q : Query) : list Query :=
  match q with Bool _ f => f | _ => [] end.

(** *** [Search] *)

Record Search : Type := mkSearch {
  _index : string;            (* Search(index=...) *)
  _query : option Query;      (* the query proxy, [None] until first use *)
  _source : pyval;            (* the [_source] projection, initially None *)
  _params : pydict;           (* request parameters, e.g. [size] *)
  _suggest : pydict           (* the suggest section of the request *)
}.

(** [Search(using=connection, index=index)] *)
Definition Search_new (index : string) : Search :=
  mkSearch index None PNone [] [].

(** [search.query(q)]: the first query is stored, later ones are and-ed. *)
Definition Search_query (q : Query) (s : Search) : Search :=
  mkSearch (_index s)
           (Some (match _query s with None => q | Some q0 => q_and q0 q end))
           (_source s) (_params s) (_suggest s).

(** [search.filter(name, field=value)] is
    [search.query(Bool(filter=[Q(name, field=value)]))]. *)
Definition Search_filter (name field : string) (value : pyval) (s : Search)
  : Search :=
  Search_query (Bool [] [Q_filter name field value]) s.

(** [search.source(key=value)] with one keyword and a value that is not
    None: a [_source] that is not a dict is replaced by an empty one, then
    the key is set. *)
Definition Search_source (key : string) (value : pyval) (s : Search)
  : Search :=
  let d := match _source s with PDict d => d | _ => [] end in
  mkSearch (_index s) (_query s) (PDict (dict_set key value d))
           (_params s) (_suggest s).

(** [search.params(size=size)] *)
Definition Search_params (kw : pydict) (s : Search) : Search :=
  mkSearch (_index s) (_query s) (_source s)
           (dict_update kw (_params s)) (_suggest s).

(** [search.suggest(name, text, **kw)] stores [{"text": text, **kw}] under
    [name]. *)
Definition Search_suggest (name : string) (text : pyval) (kw : pydict)
           (s : Search) : Search :=
  mkSearch (_index s) (_query s) (_source s) (_params s)
           (dict_set name (PDict (dict_update kw [("text", text)]))
                     (_suggest s)).

(** *** [AttrDict], [AttrList] and [Response]

    [Response] is an [AttrDict] over the mapping the engine returned.
    Reading a key or an attribute of an [AttrDict], indexing an [AttrList]
    and iterating over one all pass the underlying value through [_wrap]:
    a mapping becomes an [AttrDict], a list an [AttrList], anything else is
    handed out as it is. *)
Inductive wrapped : Type :=
| AttrDict (d : pydict)
| AttrList (l : list pyval)
| Plain (v : pyval).

Definition _wrap (v : pyval) : wrapped :=
  match v with
  | PDict d => AttrDict d
  | PList l => AttrList l
  | _ => Plain v
  end.

(** The value a view stands for. *)
Definition unwrap (w : wrapped) : pyval :=
  match w with
  | AttrDict d => PDict d
  | AttrList l => PList l
  | Plain v => v
  end.

(** [w[key]] for a string key. *)
Definition wrapped_getitem (key : string) (w : wrapped) : result wrapped :=
  match w with
  | AttrDict d =>
      match dict_get key d with
      | Some v => Ok (_wrap v)
      | None => Raise (KeyError key)
      end
  | _ => Raise (TypeError "indices must be integers")
  end.

(** [w[0]] *)
Definition wrapped_getitem0 (w : wrapped) : result wrapped :=
  match w with
  | AttrList l =>
      match l with
      | v :: _ => Ok (_wrap v)
      | [] => Raise IndexError
      end
  | AttrDict _ => Raise (KeyError "0")
  | Plain (PStr s) =>
      match s with
      | String c _ => Ok (Plain (PStr (String c "")))
      | EmptyString => Raise IndexError
      end
  | Plain _ => Raise (TypeError "object is not subscriptable")
  end.

(** [hasattr(w, name)] and [w.name], for a name that is no method of the
    classes involved ([suggest], [options], [text]): [AttrDict.__getattr__]
    looks the name up as a key. *)
Definition wrapped_hasattr (name : string) (w : wrapped) : bool :=
  match w with
  | AttrDict d => dict_has name d
  | _ => false
  end.

Definition wrapped_getattr (name : string) (w : wrapped) : result wrapped :=
  match w with
  | AttrDict d =>
      match dict_get name d with
      | Some v => Ok (_wrap v)
      | None => Raise (AttributeError name)
      end
  | _ => Raise (AttributeError name)
  end.

(** [w.to_dict()]: an [AttrDict] returns the mapping it wraps; nothing else
    has the method. *)
Definition wrapped_to_dict (w : wrapped) : result pyval :=
  match w with
  | AttrDict d => Ok (PDict d)
  | _ => Raise (AttributeError "to_dict")
  end.

(** [for x in w]: an [AttrList] yields its wrapped elements, an [AttrDict]
    its keys, a string its characters. *)
Definition wrapped_iter (w : wrapped) : result (list wrapped) :=
  match w with
  | AttrList l => Ok (map _wrap l)
  | AttrDict d => Ok (map (fun k => Plain (PStr k)) (dict_keys d))
  | Plain (PStr s) =>
      Ok (map (fun c => Plain (PStr (String c ""))) (list_ascii_of_string s))
  | Plain _ => Raise (TypeError "object is not iterable")
  end.

(** *** Plain mappings, as [elasticsearch-py] returns them *)

(** [v[key]] for a string key on a plain value. *)
Definition py_getitem (key : string) (v : pyval) : result pyval :=
  match v with
  | PDict d =>
      match dict_get key d with
      | Some x => Ok x
      | None => Raise (KeyError key)
      end
  | PNone | PBool _ | PInt _ | PFloat _ _ =>
      Raise (TypeError "object is not subscriptable")
  | PStr _ | PList _ => Raise (TypeError "indices must be integers")
  end.

(** [for x in v] on a plain value. *)
Definition py_iter (v : pyval) : result (list pyval) :=
  match v with
  | PList l => Ok l
  | PDict d => Ok (map PStr (dict_keys d))
  | PStr s => Ok (map (fun c => PStr (String c "")) (list_ascii_of_string s))
  | _ => Raise (TypeError "object is not iterable")
  end.

(** ** The engine and the monad of the search methods *)

(** The state a method threads is the log of the requests issued to the
    engine so far, oldest first.  The engine is any function of that history
    and of the request: it answers with a mapping, or the client raises one
    of the exceptions of [elasticsearch.exceptions], told apart here by
    their status. *)
Inductive answer : Type :=
| Answer (d : pydict)
| Failure (status : Z).

Definition Log : Type := list Search.
Definition Engine : Type := Log -> Search -> answer.

Definition M (A : Type) : Type := Log -> result A * Log.

Definition ret {A} (a : A) : M A := fun log => (Ok a, log).
Definition raise {A} (e : exn) : M A := fun log => (Raise e, log).
Definition bind {A B} (m : M A) (f : A -> M B) : M B :=
  fun log =>
    match m log with
    | (Ok a, log') => f a log'
    | (Raise e, log') => (Raise e, log')
    end.
Definition lift {A} (r : result A) : M A := fun log => (r, log).

Notation "x <- m ;; k" := (bind m (fun x => k))
  (at level 61, m at next level, right associativity).

(** [search.execute()]: one round trip, recorded in the log whether it
    answers or raises.  The answer is the mapping a [Response] wraps. *)
Definition execute (engine : Engine) (s : Search) : M pydict :=
  fun log =>
    (match engine log s with
     | Answer d => Ok d
     | Failure status => Raise (TransportError status)
     end,
     log ++ [s]).

(** The two shapes [serialize] accepts: [Union[Response, dict]]. *)
Inductive response : Type :=
| DslResponse (d : pydict)     (* elasticsearch_dsl.response.Response *)
| RawMapping (d : pydict).     (* the dict of elasticsearch-py *)

(** Keyword arguments, [**kwargs]. *)
Definition kwargs : Type := pydict.

(** The value bound to a keyword parameter: the one passed, or the
    default. *)
Definition kwarg (name : string) (default : pyval) (kw : kwargs) : pyval :=
  match dict_get name kw with Some v => v | None => default end.

(** Binding [**kw] to a signature that accepts only the keywords [names]. *)
Definition accepts (names : list string) (kw : kwargs) : bool :=
  forallb (fun k => existsb (String.eqb k) names) (dict_keys kw).

(** ** [BaseSearch] *)

Module BaseSearch.

(** [construct_multi_field_search(search, text, operator, fields, size,
    includes, excludes)]; [size] defaults to 5.  The [logger.info] call
    only reports the query and is left out. *)
Definition default_size : pyval := PInt 5.

Definition construct_multi_field_search
           (search : Search) (text : pyval) (operator : string)
           (fields : list string) (size includes excludes : pyval) : Search :=
  let search :=
    if truthy includes then Search_source "includes" includes search
    else search in
  let search :=
    if truthy excludes then Search_source "excludes" excludes search
    else search in
  let search := Search_query (MultiMatch text operator fields) search in
  let search := Search_params [("size", size)] search in
  search.

Definition _hit_dsl_conversor (hit : wrapped) (include_meta : pyval)
  : result pyval :=
  if truthy include_meta then wrapped_to_dict hit
  else rbind (wrapped_to_dict hit) (py_getitem "_source").

Definition _hit_conversor (hit : pyval) (include_meta : pyval)
  : result pyval :=
  if truthy include_meta then Ok hit else py_getitem "_source" hit.

(** [serialize(response, include_meta)]: the conversor is chosen by the
    type of [response], the hits are [response["hits"]["hits"]] in both
    shapes. *)
Definition serialize (resp : response) (include_meta : pyval)
  : result (list pyval) :=
  match resp with
  | DslResponse d =>
      rbind (wrapped_getitem "hits" (AttrDict d)) (fun h =>
      rbind (wrapped_getitem "hits" h) (fun hits =>
      rbind (wrapped_iter hits) (fun hits =>
      comprehension (fun hit => _hit_dsl_conversor hit include_meta) hits)))
  | RawMapping d =>
      rbind (py_getitem "hits" (PDict d)) (fun h =>
      rbind (py_getitem "hits" h) (fun hits =>
      rbind (py_iter hits) (fun hits =>
      comprehension (fun hit => _hit_conversor hit include_meta) hits)))
  end.

(** The end of [suggest], once the response is known to have a suggest
    section: [response.suggest[suggestion_name][0].options], and the [text]
    of each option.  A text leaves as the value its view stands for. *)
Definition suggestion_texts (suggestion_name : string) (response : pydict)
  : result (list pyval) :=
  rbind (wrapped_getattr "suggest" (AttrDict response)) (fun suggestions =>
  rbind (wrapped_getitem suggestion_name suggestions) (fun entries =>
  rbind (wrapped_getitem0 entries) (fun suggestions =>
  rbind (wrapped_getattr "options" suggestions) (fun options =>
  rbind (wrapped_iter options) (fun options =>
  comprehension
    (fun suggest => rbind (wrapped_getattr "text" suggest)
                          (fun t => Ok (unwrap t)))
    options))))).

Section Methods.

(** [self.connection], [self.index_name], and the abstract method
    [_search_post(text, search_operator, **kwargs)] a subclass
    provides. *)
Variable connection : Engine.
Variable index_name : string.
Variable _search_post : pyval -> string -> kwargs -> M (list pyval).

Definition search_base : Search := Search_new index_name.

Definition suggest (text field_name suggestion_type : pyval)
           (suggestion_name : string) : M (list pyval) :=
  let search := search_base in
  if negb (py_in_strs suggestion_type ["phrase"; "term"]) then
    raise (ValueError "Parámetro `suggestion_type` debe ser `term` o `phrase`")
  else
    let search :=
      if py_eq_str suggestion_type "phrase" then
        Search_suggest suggestion_name text
          [("phrase", PDict [("field", field_name); ("max_errors", PInt 3)])]
          search
      else if py_eq_str suggestion_type "term" then
        Search_suggest suggestion_name text
          [("term", PDict [("field", field_name); ("max_errors", PInt 3)])]
          search
      else search in
    response <- execute connection search ;;
    if negb (wrapped_hasattr "suggest" (AttrDict response)) then
      raise NotImplementedError
    else lift (suggestion_texts suggestion_name response).

Definition suggest_post (text : pyval) (kw : kwargs) : M (list pyval) :=
  suggested_text <- suggest text (PStr "text") (PStr "phrase")
                            "post_suggest" ;;
  match suggested_text with
  | first :: _ => _search_post first "or" kw
  | [] => ret []
  end.

Definition search_post (text : pyval) (kw : kwargs) : M (list pyval) :=
  posts <- _search_post text "and" kw ;;
  match posts with
  | _ :: _ => ret posts
  | [] =>
      posts <- _search_post text "or" kw ;;
      match posts with
      | _ :: _ => ret posts
      | [] => suggest_post text kw
      end
  end.

End Methods.

End BaseSearch.

(** ** Settings ([elastinga/settings.py]) *)

Record Settings : Type := mkSettings {
  ELASTICSEARCH_HOST : string;
  ELASTICSEARCH_USER : option string;
  ELASTICSEARCH_PASSWORD : option string;
  INSTAGRAM_INDEX_NAME : string;
  FACEBOOK_INDEX_NAME : string;
  TWITTER_INDEX_NAME : string;
  ELASTICSEARCH_SSL_CERT_PATH : option string
}.

(** ** [TwitterSearch] *)

Module TwitterSearch.

Definition _filter_username_owner (search : Search) (username_owner : pyval)
  : Search :=
  Search_filter (if isinstance_str username_owner then "term" else "terms")
                "username_owner" username_owner search.

Definition _filter_username_timeline (search : Search)
           (username_timeline : pyval) : Search :=
  Search_filter (if isinstance_str username_timeline then "term" else "terms")
                "username_timeline" username_timeline search.

(** The keywords [_search_post] accepts after [text] and
    [search_operator]. *)
Definition keywords : list string :=
  ["search_size"; "username_owner"; "username_timeline"; "includes";
   "excludes"; "include_meta"].

Section Methods.

Variable SETTINGS : Settings.
Variable connection : Engine.

(** [TwitterPosts.Index.name] *)
Definition index_name : string := TWITTER_INDEX_NAME SETTINGS.

(** The request [_search_post] builds before it executes it. *)
Definition build_search (text : pyval) (search_operator : string)
           (kw : kwargs) : Search :=
  let search_size := kwarg "search_size" (PInt 5) kw in
  let username_owner := kwarg "username_owner" PNone kw in
  let username_timeline := kwarg "username_timeline" PNone kw in
  let includes := kwarg "includes" PNone kw in
  let excludes := kwarg "excludes" PNone kw in
  let search_base := BaseSearch.search_base index_name in
  let search_base :=
    if is_not_none username_timeline
    then _filter_username_timeline search_base username_timeline
    else search_base in
  let search_base :=
    if is_not_none username_owner
    then _filter_username_owner search_base username_owner
    else search_base in
  BaseSearch.construct_multi_field_search
    search_base text search_operator ["text"] search_size includes excludes.

Definition _search_post (text : pyval) (search_operator : string)
           (kw : kwargs) : M (list pyval) :=
  if negb (accepts keywords kw) then
    raise (TypeError "_search_post() got an unexpected keyword argument")
  else
    let include_meta := kwarg "include_meta" (PBool false) kw in
    let search := build_search text search_operator kw in
    response <- execute connection search ;;
    lift (BaseSearch.serialize (DslResponse response) include_meta).

Definition suggest := BaseSearch.suggest connection index_name.
Definition suggest_post :=
  BaseSearch.suggest_post connection index_name _search_post.
Definition search_post :=
  BaseSearch.search_post connection index_name _search_post.

End Methods.

End TwitterSearch.

(** ** [InstagramSearch] *)

Module InstagramSearch.

Definition _filter_username (search : Search) (username : pyval) : Search :=
  Search_filter (if isinstance_str username then "term" else "terms")
                "username" username search.

Definition keywords : list string :=
  ["search_size"; "username"; "includes"; "excludes"; "include_meta"].

Section Methods.

Variable SETTINGS : Settings.
Variable connection : Engine.

(** [InstagramPosts.Index.name] *)
Definition index_name : string := INSTAGRAM_INDEX_NAME SETTINGS.

Definition build_search (text : pyval) (search_operator : string)
           (kw : kwargs) : Search :=
  let search_size := kwarg "search_size" (PInt 5) kw in
  let username := kwarg "username" PNone kw in
  let includes := kwarg "includes" PNone kw in
  let excludes := kwarg "excludes" PNone kw in
  let search_base := BaseSearch.search_base index_name in
  let search_base :=
    if truthy username
    then _filter_username search_base username
    else search_base in
  BaseSearch.construct_multi_field_search
    search_base text search_operator ["text"] search_size includes excludes.

Definition _search_post (text : pyval) (search_operator : string)
           (kw : kwargs) : M (list pyval) :=
  if negb (accepts keywords kw) then
    raise (TypeError "_search_post() got an unexpected keyword argument")
  else
    let include_meta := kwarg "include_meta" (PBool false) kw in
    let search := build_search text search_operator kw in
    response <- execute connection search ;;
    lift (BaseSearch.serialize (DslResponse response) include_meta).

Definition suggest := BaseSearch.suggest connection index_name.
Definition suggest_post :=
  BaseSearch.suggest_post connection index_name _search_post.
Definition search_post :=
  BaseSearch.search_post connection index_name _search_post.

End Methods.

End InstagramSearch.

(** [FacebookSearch] adds nothing to [BaseSearch] and leaves [_search_post]
    abstract: there is no method of its own to embed. *)

(** ** Vocabulary of the properties *)

(** The filter clauses and the scoring clauses a request carries. *)
Definition search_filters (s : Search) : list Query :=
  match _query s with None => [] | Some q => filter_clauses q end.

Definition search_musts (s : Search) : list Query :=
  match _query s with None => [] | Some q => must_clauses q end.

(** The [size] request parameter when it is an integer: the cap on the
    number of hits the engine may return. *)
Definition size_cap (s : Search) : option Z :=
  match dict_get "size" (_params s) with
  | Some (PInt n) => Some n
  | _ => None
  end.

(** One key of the [_source] projection. *)
Definition source_field (key : string) (s : Search) : option pyval :=
  match _source s with PDict d => dict_get key d | _ => None end.

(** What it means for a filter method [f] on [field] to keep the scalar and
    the collection apart: a string adds one [term] clause on the field, a
    list adds one [terms] clause, the scoring clauses are untouched, and the
    two added clauses are of different kinds. *)
Definition filter_kind_spec (f : Search -> pyval -> Search) (field : string)
  : Prop :=
  forall (s : Search) (v : string) (l : list pyval),
    search_filters (f s (PStr v)) = search_filters s ++ [Term field (PStr v)]
    /\ search_filters (f s (PList l))
       = search_filters s ++ [Terms field (PList l)]
    /\ query_name (Term field (PStr v)) = "term"
    /\ query_name (Terms field (PList l)) = "terms"
    /\ query_name (Term field (PStr v)) <> query_name (Terms field (PList l))
    /\ f s (PStr v) <> f s (PList [PStr v]).

(** The hit list of a response mapping: [d["hits"]["hits"]] when it is a
    list of mappings. *)
Fixpoint all_dicts (l : list pyval) : option (list pydict) :=
  match l with
  | [] => Some []
  | PDict h :: l' =>
      match all_dicts l' with Some hs => Some (h :: hs) | None => None end
  | _ :: _ => None
  end.

Definition hits_of (d : pydict) : option (list pydict) :=
  match dict_get "hits" d with
  | Some (PDict h) =>
      match dict_get "hits" h with
      | Some (PList l) => all_dicts l
      | _ => None
      end
  | _ => None
  end.

(** The record [serialize] emits for a hit. *)
Definition record_of (include_meta : pyval) (hit : pydict) : option pyval :=
  if truthy include_meta then Some (PDict hit) else dict_get "_source" hit.

(** The response of either shape over the mapping [d]. *)
Definition shape_of (dsl : bool) (d : pydict) : response :=
  if dsl then DslResponse d else RawMapping d.


(** The envelope fields the engine adds around a document body. *)
Definition envelope : list string := ["_id"; "_score"; "_index"].

Definition record_has (key : string) (record : pyval) : bool :=
  match record with PDict r => dict_has key r | _ => false end.

(** A hit as the engine delivers it: the envelope fields are present, and
    [_source] is the document body, a mapping of the fields of the schema,
    none of which bears the name of an envelope field. *)
Definition engine_hit (hit : pydict) : bool :=
  forallb (fun k => dict_has k hit) envelope
  && match dict_get "_source" hit with
     | Some (PDict body) => forallb (fun k => negb (dict_has k body)) envelope
     | _ => false
     end.

(** The document body of a hit. *)
Definition body_of (hit : pydict) : pyval :=
  match dict_get "_source" hit with Some b => b | None => PNone end.


(** The request [suggest] sends for a suggestion of kind [kind]. *)
Definition suggest_request (index : string) (text field_name : pyval)
           (kind suggestion_name : string) : Search :=
  Search_suggest suggestion_name text
    [(kind, PDict [("field", field_name); ("max_errors", PInt 3)])]
    (Search_new index).

(** The exception of the check on [suggestion_type]. *)
Definition invalid_suggestion_type : exn :=
  ValueError "Parámetro `suggestion_type` debe ser `term` o `phrase`".

Definition is_value_error {A} (r : result A) : bool :=
  match r with Raise (ValueError _) => true | _ => false end.

(** The texts of a list of options, each a mapping with a [text]. *)
Fixpoint option_texts (options : list pyval) : option (list pyval) :=
  match options with
  | [] => Some []
  | PDict o :: options' =>
      match dict_get "text" o, option_texts options' with
      | Some t, Some ts => Some (t :: ts)
      | _, _ => None
      end
  | _ :: _ => None
  end.

(** The filter clause a filter method adds for a value on a field. *)
Definition filter_on (field : string) (v : pyval) : Query :=
  Q_filter (if isinstance_str v then "term" else "terms") field v.

(** The contract of the engine on search requests: the answer lists hit
    mappings under [hits.hits], no more of them than the [size] parameter of
    the request allows. *)
Definition honours_size (engine : Engine) : Prop :=
  forall (log : Log) (s : Search) (d : pydict),
    engine log s = Answer d ->
    exists hits, hits_of d = Some hits
                 /\ forall n, size_cap s = Some n ->
                              Z.of_nat (length hits) <= n.

(** ** A small index, for examples

    Two tweets and an engine over them that answers the way Elasticsearch
    answers the requests of [crud.py]: a search request gets the hits of
    its [multi_match] clause, narrowed by the [term] filters and cut at the
    [size] parameter; a suggest request gets a suggest section. *)
Module Fixture.

Definition settings : Settings :=
  mkSettings "localhost:9200" None None "instagram" "facebook" "twitter" None.

Definition tweet (id text owner : string) : pydict :=
  [("tweet_id", PStr id); ("text", PStr text);
   ("username_owner", PStr owner)].

Definition hit (id : string) (score : pyval) (body : pydict) : pydict :=
  [("_index", PStr "twitter"); ("_type", PStr "_doc"); ("_id", PStr id);
   ("_score", score); ("_source", PDict body)].

Definition hit1 : pydict :=
  hit "1" (PFloat 3 (-1)) (tweet "1" "happy new year" "alice").
Definition hit2 : pydict :=
  hit "2" (PFloat 1 (-2)) (tweet "2" "new car" "bob").

Definition response_of (hits : list pydict) : pydict :=
  [("took", PInt 2); ("timed_out", PBool false);
   ("hits", PDict [("total", PInt (Z.of_nat (length hits)));
                   ("hits", PList (map PDict hits))])].

Definition suggest_response (name text : string) (options : list string)
  : pydict :=
  response_of []
  ++ [("suggest",
       PDict [(name,
               PList [PDict [("text", PStr text); ("offset", PInt 0);
                             ("options",
                              PList (map (fun o => PDict [("text", PStr o)])
                                         options))];
                      PDict [("text", PStr "ignored"); ("offset", PInt 1);
                             ("options",
                              PList [PDict [("text", PStr "second entry")]])]
                     ])])].

(** The hits of a text under an operator, best first. *)
Definition matches (text : pyval) (operator : string) : list pydict :=
  if py_eq_str text "happy new year" then
    if String.eqb operator "and" then [hit1] else [hit1; hit2]
  else if py_eq_str text "new yaer" then
    if String.eqb operator "and" then [] else [hit2; hit1; hit2]
  else [].

Definition passes (f : Query) (h : pydict) : bool :=
  match f with
  | Term field (PStr v) =>
      match body_of h with
      | PDict body =>
          match dict_get field body with
          | Some x => py_eq_str x v
          | None => false
          end
      | _ => false
      end
  | _ => true
  end.

Definition first_multi_match (s : Search) : option (pyval * string) :=
  match
    filter (fun q => String.eqb (query_name q) "multi_match") (search_musts s)
  with
  | MultiMatch text operator _ :: _ => Some (text, operator)
  | _ => None
  end.

Definition cut (s : Search) (hits : list pydict) : list pydict :=
  match size_cap s with
  | Some n => firstn (Z.to_nat n) hits
  | None => hits
  end.

Definition engine : Engine := fun _ s =>
  match _suggest s with
  | (name, PDict req) :: _ =>
      match dict_get "text" req with
      | Some (PStr t) =>
          Answer (suggest_response name t
                (if String.eqb t "hapy new yaer"
                 then ["happy new year"; "happy new years"] else []))
      | _ => Failure 400
      end
  | _ :: _ => Failure 400
  | [] =>
      match first_multi_match s with
      | Some (text, operator) =>
          Answer (response_of
                (cut s (filter (fun h => forallb (fun f => passes f h)
                                                 (search_filters s))
                               (matches text operator))))
      | None => Answer (response_of (cut s [hit1; hit2]))
      end
  end.

(** The engine over an index that holds no document: no hit, and no suggest
    section in the answer to a suggest request. *)
Definition empty_index_engine : Engine := fun _ _ => Answer (response_of []).

End Fixture.

(** ** Further vocabulary *)

(** The filter clauses of a Twitter request, from its keywords: the timeline
    filter, then the owner filter, each when its value is not None. *)
Definition twitter_filter_clauses (kw : kwargs) : list Query :=
  (if is_not_none (kwarg "username_timeline" PNone kw)
   then [filter_on "username_timeline" (kwarg "username_timeline" PNone kw)]
   else [])
  ++ (if is_not_none (kwarg "username_owner" PNone kw)
      then [filter_on "username_owner" (kwarg "username_owner" PNone kw)]
      else []).

(** The filter clause of an Instagram request: the username filter when the
    value is truthy. *)
Definition instagram_filter_clauses (kw : kwargs) : list Query :=
  if truthy (kwarg "username" PNone kw)
  then [filter_on "username" (kwarg "username" PNone kw)]
  else [].

(** The query of a search on [text] under [filters]: the [multi_match] on
    field [text] alone, or as the one [must] clause of a [Bool] that holds
    the filters. *)
Definition post_query (text : pyval) (operator : string)
           (filters : list Query) : Query :=
  match filters with
  | [] => MultiMatch text operator ["text"]
  | _ :: _ => Bool [MultiMatch text operator ["text"]] filters
  end.

(** The [_source] projection [construct_multi_field_search] leaves on a
    fresh request. *)
Definition projection (includes excludes : pyval) : pyval :=
  if truthy includes then
    if truthy excludes
    then PDict [("includes", includes); ("excludes", excludes)]
    else PDict [("includes", includes)]
  else if truthy excludes then PDict [("excludes", excludes)]
  else PNone.

(** What a search method makes of the engine's answer to its request. *)
Definition outcome (a : answer) (include_meta : pyval)
  : result (list pyval) :=
  match a with
  | Answer d => BaseSearch.serialize (DslResponse d) include_meta
  | Failure status => Raise (TransportError status)
  end.

(** The concrete subclasses of [BaseSearch], with their method tables. *)
Inductive PostSearch : Type := Twitter | Instagram.

Definition keywords_of (c : PostSearch) : list string :=
  match c with
  | Twitter => TwitterSearch.keywords
  | Instagram => InstagramSearch.keywords
  end.

Definition index_name_of (c : PostSearch) (SETTINGS : Settings) : string :=
  match c with
  | Twitter => TwitterSearch.index_name SETTINGS
  | Instagram => InstagramSearch.index_name SETTINGS
  end.

Definition build_search_of (c : PostSearch) (SETTINGS : Settings)
  : pyval -> string -> kwargs -> Search :=
  match c with
  | Twitter => TwitterSearch.build_search SETTINGS
  | Instagram => InstagramSearch.build_search SETTINGS
  end.

Definition _search_post_of (c : PostSearch) (SETTINGS : Settings)
           (connection : Engine)
  : pyval -> string -> kwargs -> M (list pyval) :=
  match c with
  | Twitter => TwitterSearch._search_post SETTINGS connection
  | Instagram => InstagramSearch._search_post SETTINGS connection
  end.

Definition search_post_of (c : PostSearch) (SETTINGS : Settings)
           (connection : Engine) : pyval -> kwargs -> M (list pyval) :=
  match c with
  | Twitter => TwitterSearch.search_post SETTINGS connection
  | Instagram => InstagramSearch.search_post SETTINGS connection
  end.

(** The request of the suggestion tier. *)
Definition post_suggest_request (index : string) (text : pyval) : Search :=
  suggest_request index text (PStr "text") "phrase" "post_suggest".

(** The requests one [search_post] may send, in order: the strict query,
    then the relaxed one, then the suggestion, then the relaxed query on a
    candidate. *)
Definition escalation (request : pyval -> string -> Search)
           (suggestion : Search) (text : pyval) (reqs : list Search) : Prop :=
  reqs = [request text "and"]
  \/ reqs = [request text "and"; request text "or"]
  \/ reqs = [request text "and"; request text "or"; suggestion]
  \/ exists candidate,
      reqs = [request text "and"; request text "or"; suggestion;
              request candidate "or"].

(** ** Two more engines, for examples *)
Module Outage.

(** The engine of the small index, down (503) when its second request
    arrives. *)
Definition engine : Engine := fun log s =>
  match log with
  | [_] => Failure 503
  | _ => Fixture.engine log s
  end.

End Outage.

Module Capped.

(** An engine that matches every text with three hits, cut at [size], and
    refuses a negative [size]. *)
Definition engine : Engine := fun _ s =>
  match size_cap s with
  | Some n =>
      if n <? 0 then Failure 400
      else Answer (Fixture.response_of
                     (firstn (Z.to_nat n)
                             [Fixture.hit1; Fixture.hit2; Fixture.hit1]))
  | None => Answer (Fixture.response_of [])
  end.

End Capped.

(** ** Exceptions of the package ([elastinga/exc.py]) *)

(** [s.replace(old, new)]: every occurrence of [old], found left to right
    without overlap, becomes [new].  [skip] counts the characters of a
    match still to pass over.  An empty [old] matches between characters
    and at both ends. *)
Fixpoint replace_from (old new : string) (skip : nat) (s : string) : string :=
  match s with
  | EmptyString => EmptyString
  | String c s' =>
      match skip with
      | S k => replace_from old new k s'
      | O =>
          if String.prefix old s
          then new ++ replace_from old new (String.length old - 1) s'
          else String c (replace_from old new 0 s')
      end
  end.

Fixpoint intersperse (new s : string) : string :=
  match s with
  | EmptyString => new
  | String c s' => new ++ String c (intersperse new s')
  end.

Definition str_replace (old new s : string) : string :=
  match old with
  | EmptyString => intersperse new s
  | String _ _ => replace_from old new 0 s
  end.

(** Whether a character occurs in a string. *)
Fixpoint occurs (c : ascii) (s : string) : bool :=
  match s with
  | EmptyString => false
  | String a s' => Ascii.eqb c a || occurs c s'
  end.

Module ElastingaErrorMixin.

Section Str.

(** [str(value)], Python's rendering of a context value. *)
Variable py_str : pyval -> string.

(** [__str__]: each [{name}] of the template is replaced by the rendering
    of the context value of that name, in the order of the context; then
    the marks of a placeholder left unfilled between backquotes are
    removed. *)
Definition __str__ (msg_template : string) (ctx : pydict) : string :=
  let txt :=
    fold_left
      (fun txt kv => str_replace ("{" ++ fst kv ++ "}") (py_str (snd kv)) txt)
      ctx msg_template in
  let txt := str_replace "}`" "" (str_replace "`{" "" txt) in
  txt.

End Str.

End ElastingaErrorMixin.

(** The templates of the three exceptions. *)
Module EnvVarNotFound.
Definition msg_template : string :=
  "La variable de entorno `{env_var}` no se puede encontrar".
End EnvVarNotFound.

Module ElasticsearchNotReady.
Definition msg_template : string :=
  "La conexión a elasticsearch no está lista aun".
End ElasticsearchNotReady.

Module IndexNotExists.
Definition msg_template : string := "El índice {index} no existe".
End IndexNotExists.

(** A rendering for examples: a string renders as itself. *)
Definition str_of_text (v : pyval) : string :=
  match v with PStr s => s | _ => "?" end.

(** ** The connection to the cluster ([elastinga/connection.py]) *)

Module ElasticSearchConnection.

(** The values among the keyword arguments of a connection: plain values,
    and the objects [__init__] puts there. *)
Inductive value : Type :=
| Py (v : pyval)
| TransportClass (async : bool)       (* Transport or AsyncTransport *)
| SslContext (cafile : string).       (* create_default_context(cafile=..) *)

Definition keywords : Type := list (string * value).

Fixpoint get (k : string) (kw : keywords) : option value :=
  match kw with
  | [] => None
  | (k', v) :: kw' => if String.eqb k k' then Some v else get k kw'
  end.

(** [kw[k] = v], also what [kw.update] does for one keyword. *)
Fixpoint set (k : string) (v : value) (kw : keywords) : keywords :=
  match kw with
  | [] => [(k, v)]
  | (k', v') :: kw' =>
      if String.eqb k k' then (k', v) :: kw' else (k', v') :: set k v kw'
  end.

(** [kw.setdefault(k, v)] *)
Definition setdefault (k : string) (v : value) (kw : keywords) : keywords :=
  match get k kw with Some _ => kw | None => set k v kw end.

(** Removing the named parameters from the keywords of a call. *)
Definition without (names : list string) (kw : keywords) : keywords :=
  filter (fun kv => negb (existsb (String.eqb (fst kv)) names)) kw.

Inductive error : Type :=
| ValueError (msg : string)
| ModuleNotFoundError (name : string)
| AttributeError (attr : string)
| CafileError (path : string)     (* what create_default_context raises *)
| TransportError (status : Z)     (* elasticsearch.exceptions *)
| ElasticsearchNotReady.

Inductive outcome (A : Type) : Type :=
| Return (a : A)
| Raised (e : error).
Arguments Return {A} a.
Arguments Raised {A} e.

(** What the constructor finds around it: whether [elasticsearch_async]
    can be imported, which certificate files [create_default_context] can
    load, and [certifi.where()]. *)
Record Environment : Type := mkEnvironment {
  elasticsearch_async_installed : bool;
  loads_cafile : string -> bool;
  CA_CERTS : string
}.

(** The truth value of an [Optional[str]] setting. *)
Definition given (setting : option string) : bool :=
  match setting with
  | Some s => negb (String.eqb s "")
  | None => false
  end.

(** [__init__(self, alias="default", transport_type="sync", **kwargs)],
    called with the keywords [call]; the result is [self._kwargs]
    ([self._connection] starts as None).  [ELASTICSEARCH_PASSWORD] is an
    [Optional[str]] of the settings, and a [str] has no
    [get_secret_value]; a path is always true. *)
Definition __init__ (SETTINGS : Settings) (env : Environment)
           (call : keywords) : outcome keywords :=
  let alias :=
    match get "alias" call with Some a => a | None => Py (PStr "default") end
  in
  let transport_type :=
    match get "transport_type" call with
    | Some (Py t) => t
    | Some _ => PNone
    | None => PStr "sync"
    end in
  let kwargs := without ["alias"; "transport_type"] call in
  if negb (py_in_strs transport_type ["sync"; "async"]) then
    Raised (ValueError "`transport_type` debe ser `sync` o `async`")
  else if py_eq_str transport_type "async"
          && negb (elasticsearch_async_installed env) then
    Raised (ModuleNotFoundError "elasticsearch_async")
  else
    let transport_class := TransportClass (py_eq_str transport_type "async")
    in
    if given (ELASTICSEARCH_USER SETTINGS)
       && given (ELASTICSEARCH_PASSWORD SETTINGS) then
      Raised (AttributeError "get_secret_value")
    else
      match ELASTICSEARCH_SSL_CERT_PATH SETTINGS with
      | Some path =>
          if loads_cafile env path then
            Return
              (setdefault "transport_class" transport_class
              (setdefault "ca_certs" (Py (PStr (CA_CERTS env)))
              (setdefault "verify_certs" (Py (PBool true))
              (setdefault "hosts"
                 (Py (PList [PStr (ELASTICSEARCH_HOST SETTINGS)]))
              (setdefault "alias" alias
              (set "ssl_context" (SslContext path) kwargs))))))
          else Raised (CafileError path)
      | None =>
          Return
            (setdefault "transport_class" transport_class
            (setdefault "ca_certs" (Py (PStr (CA_CERTS env)))
            (setdefault "verify_certs" (Py (PBool true))
            (setdefault "hosts"
               (Py (PList [PStr (ELASTICSEARCH_HOST SETTINGS)]))
            (setdefault "alias" alias kwargs)))))
      end.

(** *** The lazy connection and the methods over it *)

Section Methods.

(** The client: [connections.create_connection], and the three requests
    the methods make.  [ping] answers False when the cluster cannot be
    reached; the other two raise then.  Each may answer differently as time
    passes: [tick] counts the requests made so far. *)
Variable handle : Type.
Variable create_connection : keywords -> outcome handle.
Variable ping : handle -> nat -> bool.
Variable indices_exists : handle -> nat -> string -> outcome bool.
Variable indices_get : handle -> nat -> string -> outcome pydict.

Record state : Type := mkState {
  _kwargs : keywords;
  _connection : option handle;
  created : nat;      (* connections created so far *)
  tick : nat          (* requests made so far *)
}.

(** The object as [__init__] leaves it. *)
Definition fresh (kw : keywords) : state := mkState kw None 0 0.

(** The [connection] property. *)
Definition connection (self : state) : outcome handle * state :=
  match _connection self with
  | Some h => (Return h, self)
  | None =>
      match create_connection (_kwargs self) with
      | Return h =>
          (Return h,
           mkState (_kwargs self) (Some h) (S (created self)) (tick self))
      | Raised e => (Raised e, self)
      end
  end.

Definition request (self : state) : state :=
  mkState (_kwargs self) (_connection self) (created self) (S (tick self)).

Definition index_names (self : state) : outcome (list string) * state :=
  match connection self with
  | (Return h, self) =>
      (match indices_get h (tick self) "*" with
       | Return d => Return (dict_keys d)
       | Raised e => Raised e
       end,
       request self)
  | (Raised e, self) => (Raised e, self)
  end.

Definition test_connection (self : state) : outcome bool * state :=
  match connection self with
  | (Return h, self) => (Return (ping h (tick self)), request self)
  | (Raised e, self) => (Raised e, self)
  end.

Definition verify_index_exist (index_name : string) (self : state)
  : outcome bool * state :=
  match connection self with
  | (Return h, self) =>
      (match indices_exists h (tick self) index_name with
       | Return true => Return true
       | Return false => Return false
       | Raised e => Raised e
       end,
       request self)
  | (Raised e, self) => (Raised e, self)
  end.

Definition raise_unconnected (self : state) : outcome unit * state :=
  match connection self with
  | (Return h, self) =>
      (if negb (ping h (tick self)) then Raised ElasticsearchNotReady
       else Return tt,
       request self)
  | (Raised e, self) => (Raised e, self)
  end.

(** A method call on the object, and the state a sequence of calls leaves,
    whatever each returns or raises. *)
Inductive method : Type :=
| IndexNames
| TestConnection
| VerifyIndexExist (index_name : string)
| RaiseUnconnected.

Definition call (m : method) (self : state) : state :=
  match m with
  | IndexNames => snd (index_names self)
  | TestConnection => snd (test_connection self)
  | VerifyIndexExist index_name => snd (verify_index_exist index_name self)
  | RaiseUnconnected => snd (raise_unconnected self)
  end.

Definition calls (ms : list method) (self : state) : state :=
  fold_left (fun self m => call m self) ms self.

(** The object holds a connection exactly when it has created one, and it
    has created at most one. *)
Definition settled (self : state) : Prop :=
  (_connection self = None /\ created self = 0%nat)
  \/ (exists h, _connection self = Some h /\ created self = 1%nat).

End Methods.

End ElasticSearchConnection.

(** Settings and surroundings for the examples on the connection. *)
Module Deployment.

Definition environment : ElasticSearchConnection.Environment :=
  ElasticSearchConnection.mkEnvironment
    false (fun path => String.eqb path "/etc/ssl/es.pem")
    "/usr/lib/python3/site-packages/certifi/cacert.pem".

Definition secured : Settings :=
  mkSettings "es.example.org:9200" (Some "elastic") (Some "changeme")
             "instagram" "facebook" "twitter" None.

Definition with_certificate : Settings :=
  mkSettings "es.example.org:9200" None None
             "instagram" "facebook" "twitter" (Some "/etc/ssl/es.pem").

(** A client for examples: connection number 7, a cluster that answers
    every other ping and holds the Twitter index. *)
Definition create_connection (kw : ElasticSearchConnection.keywords)
  : ElasticSearchConnection.outcome nat :=
  ElasticSearchConnection.Return 7%nat.

Definition ping (h : nat) (tick : nat) : bool := Nat.even tick.

Definition indices_exists (h : nat) (tick : nat) (name : string)
  : ElasticSearchConnection.outcome bool :=
  ElasticSearchConnection.Return (String.eqb name "twitter").

Definition indices_get (h : nat) (tick : nat) (pattern : string)
  : ElasticSearchConnection.outcome pydict :=
  ElasticSearchConnection.Return [("twitter", PDict [])].

End Deployment.

(** * Properties *)

(** ** Dictionaries *)

Lemma dict_get_set_same (k : string) (v : pyval) (d : pydict) :
  dict_get k (dict_set k v d) = Some v.
Proof.
  induction d as [|[k' v'] d IH]; simpl.
  - now rewrite String.eqb_refl.
  - destruct (String.eqb k k') eqn:E; simpl; rewrite E; auto.
Qed.

Lemma dict_get_set_other (k k' : string) (v : pyval) (d : pydict) :
  k <> k' -> dict_get k (dict_set k' v d) = dict_get k d.
Proof.
  intros Hne. induction d as [|[k0 v0] d IH]; simpl.
  - apply String.eqb_neq in Hne. now rewrite Hne.
  - destruct (String.eqb k' k0) eqn:E; simpl.
    + apply String.eqb_eq in E. subst k0.
      apply String.eqb_neq in Hne. now rewrite Hne.
    + now rewrite IH.
Qed.

Lemma dict_keys_set (k : string) (v w : pyval) (d : pydict) :
  dict_keys (dict_set k v d) = dict_keys (dict_set k w d).
Proof.
  unfold dict_keys.
  induction d as [|[k' v'] d IH]; simpl; auto.
  destruct (String.eqb k k'); simpl; congruence.
Qed.

Lemma kwarg_set_same (k : string) (v default : pyval) (kw : kwargs) :
  kwarg k default (dict_set k v kw) = v.
Proof. unfold kwarg. now rewrite dict_get_set_same. Qed.

Lemma kwarg_set_other (k k' : string) (v default : pyval) (kw : kwargs) :
  k <> k' -> kwarg k default (dict_set k' v kw) = kwarg k default kw.
Proof. intros H. unfold kwarg. now rewrite dict_get_set_other. Qed.

Lemma accepts_set (names : list string) (k : string) (v w : pyval)
      (kw : kwargs) :
  accepts names (dict_set k v kw) = accepts names (dict_set k w kw).
Proof. unfold accepts. now rewrite (dict_keys_set k v w). Qed.

(** ** Queries *)

Lemma filter_clauses_q_and (a b : Query) :
  filter_clauses (q_and a b) = filter_clauses a ++ filter_clauses b.
Proof.
  destruct a, b; simpl; auto using app_nil_r.
Qed.

Lemma search_filters_query (q : Query) (s : Search) :
  search_filters (Search_query q s) = search_filters s ++ filter_clauses q.
Proof.
  unfold search_filters, Search_query; simpl.
  destruct (_query s); simpl; auto using filter_clauses_q_and.
Qed.

Lemma search_filters_filter (name field : string) (v : pyval) (s : Search) :
  search_filters (Search_filter name field v s)
  = search_filters s ++ [Q_filter name field v].
Proof. unfold Search_filter. now rewrite search_filters_query. Qed.

Lemma must_clauses_q_and_multi_match (a : Query) text operator fields :
  In (MultiMatch text operator fields)
     (must_clauses (q_and a (MultiMatch text operator fields))).
Proof.
  destruct a; simpl; rewrite ?in_app_iff; simpl; auto.
Qed.

Lemma search_musts_multi_match text operator fields (s : Search) :
  In (MultiMatch text operator fields)
     (search_musts (Search_query (MultiMatch text operator fields) s)).
Proof.
  unfold search_musts, Search_query; simpl.
  destruct (_query s) as [q|]; simpl; auto.
  apply must_clauses_q_and_multi_match.
Qed.

Lemma search_musts_query_multi_match text operator fields (s : Search) :
  search_musts (Search_query (MultiMatch text operator fields) s)
  = search_musts s ++ [MultiMatch text operator fields].
Proof.
  unfold search_musts, Search_query; simpl.
  destruct (_query s) as [[]|]; reflexivity.
Qed.

(** ** The query builder *)

Section QueryBuilder.

Variables (search : Search) (text : pyval) (operator : string)
          (fields : list string) (includes excludes : pyval).

Let build (size : pyval) : Search :=
  BaseSearch.construct_multi_field_search
    search text operator fields size includes excludes.

Lemma build_params (size : pyval) :
  _params (build size) = dict_set "size" size (_params search).
Proof.
  unfold build, BaseSearch.construct_multi_field_search.
  destruct (truthy includes), (truthy excludes); reflexivity.
Qed.

Lemma build_source (size : pyval) :
  _source (build size)
  = _source
      (let s1 := if truthy includes
                 then Search_source "includes" includes search
                 else search in
       if truthy excludes then Search_source "excludes" excludes s1
       else s1).
Proof.
  unfold build, BaseSearch.construct_multi_field_search.
  destruct (truthy includes), (truthy excludes); reflexivity.
Qed.

Lemma build_query (size : pyval) :
  _query (build size)
  = _query (Search_query (MultiMatch text operator fields) search).
Proof.
  unfold build, BaseSearch.construct_multi_field_search.
  destruct (truthy includes), (truthy excludes); reflexivity.
Qed.

(** C9.  The request [construct_multi_field_search] returns carries, after
    the scoring clauses of the base request, one [multi_match] clause with
    exactly the given text, operator and field list, and leaves the filter
    clauses alone; its [size] parameter is the requested size, 5 when the
    default is taken, so the cap sent to the engine never exceeds the
    requested size; an [includes] or [excludes] list that is given (a
    non-empty one) is stored under its key of the [_source] projection of
    the base request, and a projection that is not given leaves that key
    as the base request has it.  This holds for every field list and
    every size, in particular for a non-empty field list and a positive
    size. *)
Theorem construct_multi_field_search_spec (size : Z) :
  let r := BaseSearch.construct_multi_field_search
             search text operator fields (PInt size) includes excludes in
  search_musts r = search_musts search ++ [MultiMatch text operator fields]
  /\ search_filters r = search_filters search
  /\ dict_get "size" (_params r) = Some (PInt size)
  /\ (exists cap, size_cap r = Some cap /\ cap <= size)
  /\ size_cap (BaseSearch.construct_multi_field_search
                 search text operator fields BaseSearch.default_size
                 includes excludes) = Some 5
  /\ source_field "includes" r
     = (if truthy includes then Some includes
        else source_field "includes" search)
  /\ source_field "excludes" r
     = (if truthy excludes then Some excludes
        else source_field "excludes" search)
  /\ (if truthy includes || truthy excludes then True
      else _source r = _source search)
  /\ _index r = _index search
  /\ _suggest r = _suggest search.
Proof.
  cbv zeta. fold (build (PInt size)). fold (build BaseSearch.default_size).
  assert (Hsize : forall v, dict_get "size" (_params (build v)) = Some v).
  { intros v. rewrite build_params. apply dict_get_set_same. }
  repeat split.
  - unfold search_musts. rewrite build_query.
    apply search_musts_query_multi_match.
  - unfold search_filters. rewrite build_query.
    fold (search_filters
            (Search_query (MultiMatch text operator fields) search)).
    rewrite search_filters_query. simpl. apply app_nil_r.
  - apply Hsize.
  - exists size. unfold size_cap. rewrite Hsize. split; [reflexivity|lia].
  - unfold size_cap. now rewrite Hsize.
  - unfold source_field. rewrite build_source. cbv zeta.
    destruct (truthy includes), (truthy excludes); simpl;
      try reflexivity.
    + rewrite dict_get_set_other by discriminate.
      apply dict_get_set_same.
    + apply dict_get_set_same.
    + rewrite dict_get_set_other by discriminate.
      destruct (_source search); reflexivity.
  - unfold source_field. rewrite build_source. cbv zeta.
    destruct (truthy includes), (truthy excludes); simpl;
      try reflexivity.
    + apply dict_get_set_same.
    + rewrite dict_get_set_other by discriminate.
      destruct (_source search); reflexivity.
    + apply dict_get_set_same.
  - rewrite build_source. cbv zeta.
    destruct (truthy includes), (truthy excludes); simpl; auto.
  - unfold build, BaseSearch.construct_multi_field_search.
    destruct (truthy includes), (truthy excludes); reflexivity.
  - unfold build, BaseSearch.construct_multi_field_search.
    destruct (truthy includes), (truthy excludes); reflexivity.
Qed.

End QueryBuilder.

(** ** Filters *)

Lemma Search_filter_kind_spec (field : string) :
  filter_kind_spec
    (fun s v =>
       Search_filter (if isinstance_str v then "term" else "terms") field v s)
    field.
Proof.
  intros s v l. cbn [isinstance_str].
  rewrite !search_filters_filter.
  repeat split; try discriminate.
  intros H.
  assert (Hf : search_filters
                 (Search_filter "term" field (PStr v) s)
               = search_filters
                   (Search_filter "terms" field (PList [PStr v]) s))
    by now rewrite H.
  rewrite !search_filters_filter in Hf.
  apply app_inv_head in Hf. discriminate.
Qed.

(** C3.  Each of the three filter methods, [_filter_username_owner] and
    [_filter_username_timeline] of [TwitterSearch] and [_filter_username] of
    [InstagramSearch], adds a [term] clause on its field for a string and a
    [terms] clause for a list, a one-element list holding that same string
    included; the two requests differ and so do the kinds of the added
    clauses. *)
Theorem filter_term_vs_terms :
  filter_kind_spec TwitterSearch._filter_username_owner "username_owner"
  /\ filter_kind_spec TwitterSearch._filter_username_timeline
                      "username_timeline"
  /\ filter_kind_spec InstagramSearch._filter_username "username".
Proof.
  split; [|split]; exact (Search_filter_kind_spec _).
Qed.

(** ** List comprehensions *)

Lemma comprehension_map {A B C} (f : B -> result C) (g : A -> B)
      (l : list A) :
  comprehension f (map g l) = comprehension (fun x => f (g x)) l.
Proof.
  induction l as [|x l IH]; simpl; [reflexivity|].
  now rewrite IH.
Qed.

Lemma comprehension_ext {A B} (f g : A -> result B) (l : list A) :
  (forall x, In x l -> f x = g x) ->
  comprehension f l = comprehension g l.
Proof.
  induction l as [|x l IH]; intros H; simpl; [reflexivity|].
  rewrite (H x) by (now left).
  rewrite IH by (intros y Hy; apply H; now right).
  reflexivity.
Qed.

Lemma comprehension_Ok_map {A B} (f : A -> result B) (g : A -> B)
      (l : list A) :
  (forall x, In x l -> f x = Ok (g x)) ->
  comprehension f l = Ok (map g l).
Proof.
  induction l as [|x l IH]; intros H; simpl; [reflexivity|].
  rewrite (H x) by (now left).
  rewrite IH by (intros y Hy; apply H; now right).
  reflexivity.
Qed.

(** A comprehension that returns has converted every element, in order. *)
Lemma comprehension_Ok_Forall2 {A B} (f : A -> result B) (l : list A)
      (out : list B) :
  comprehension f l = Ok out <-> Forall2 (fun x y => f x = Ok y) l out.
Proof.
  revert out. induction l as [|x l IH]; intros out; simpl.
  - split.
    + intros H. injection H as <-. constructor.
    + intros H. inversion H. reflexivity.
  - split.
    + destruct (f x) as [y|e] eqn:Efx; [|discriminate].
      destruct (comprehension f l) as [ys|e] eqn:Ec; [|discriminate].
      intros H. injection H as <-.
      constructor; [assumption|]. now apply IH.
    + intros H. inversion H as [|x' y l' ys Hxy Hrest]; subst.
      rewrite Hxy. apply IH in Hrest. now rewrite Hrest.
Qed.

(** ** The result normalizer *)

Lemma all_dicts_spec (l : list pyval) (hits : list pydict) :
  all_dicts l = Some hits -> l = map PDict hits.
Proof.
  revert hits. induction l as [|x l IH]; intros hits H; simpl in H.
  - injection H as <-. reflexivity.
  - destruct x; try discriminate.
    destruct (all_dicts l) as [hs|]; [|discriminate].
    injection H as <-. simpl. f_equal. now apply IH.
Qed.

Lemma hits_of_spec (d : pydict) (hits : list pydict) :
  hits_of d = Some hits ->
  exists h, dict_get "hits" d = Some (PDict h)
            /\ dict_get "hits" h = Some (PList (map PDict hits)).
Proof.
  unfold hits_of. intros H.
  destruct (dict_get "hits" d) as [[| | | | | |h]|]; try discriminate.
  destruct (dict_get "hits" h) as [[| | | | |l|]|] eqn:Hh; try discriminate.
  apply all_dicts_spec in H. subst l. exists h. now split.
Qed.

Lemma _hit_conversor_dict (hit : pydict) (include_meta : pyval) :
  BaseSearch._hit_conversor (PDict hit) include_meta
  = match record_of include_meta hit with
    | Some r => Ok r
    | None => Raise (KeyError "_source")
    end.
Proof.
  unfold BaseSearch._hit_conversor, record_of.
  destruct (truthy include_meta); simpl; [reflexivity|].
  destruct (dict_get "_source" hit); reflexivity.
Qed.

Lemma _hit_dsl_conversor_dict (hit : pydict) (include_meta : pyval) :
  BaseSearch._hit_dsl_conversor (_wrap (PDict hit)) include_meta
  = BaseSearch._hit_conversor (PDict hit) include_meta.
Proof.
  unfold BaseSearch._hit_dsl_conversor, BaseSearch._hit_conversor.
  destruct (truthy include_meta); reflexivity.
Qed.

Lemma serialize_raw (d : pydict) (hits : list pydict) (include_meta : pyval) :
  hits_of d = Some hits ->
  BaseSearch.serialize (RawMapping d) include_meta
  = comprehension (fun hit => BaseSearch._hit_conversor (PDict hit)
                                                        include_meta) hits.
Proof.
  intros (h & Hd & Hh)%hits_of_spec. unfold BaseSearch.serialize; simpl.
  rewrite Hd; simpl. rewrite Hh; simpl.
  apply comprehension_map.
Qed.

Lemma serialize_dsl (d : pydict) (hits : list pydict) (include_meta : pyval) :
  hits_of d = Some hits ->
  BaseSearch.serialize (DslResponse d) include_meta
  = comprehension (fun hit => BaseSearch._hit_conversor (PDict hit)
                                                        include_meta) hits.
Proof.
  intros (h & Hd & Hh)%hits_of_spec. unfold BaseSearch.serialize; simpl.
  rewrite Hd; simpl. rewrite Hh; simpl.
  rewrite !comprehension_map.
  apply comprehension_ext. intros hit _. apply _hit_dsl_conversor_dict.
Qed.

Lemma serialize_shape (dsl : bool) (d : pydict) (hits : list pydict)
      (include_meta : pyval) :
  hits_of d = Some hits ->
  BaseSearch.serialize (shape_of dsl d) include_meta
  = comprehension (fun hit => BaseSearch._hit_conversor (PDict hit)
                                                        include_meta) hits.
Proof.
  destruct dsl; [apply serialize_dsl | apply serialize_raw].
Qed.

(** C5.  Shape invariance: over the same mapping, whose [hits.hits] is a
    list of hit mappings, [serialize] gives the same outcome for the DSL
    [Response] and for the raw dict, whatever the [include_meta] flag: the
    same list of records, or the same exception when a hit has no
    [_source]. *)
Theorem serialize_shape_invariant (d : pydict) (hits : list pydict)
        (include_meta : pyval) :
  hits_of d = Some hits ->
  BaseSearch.serialize (DslResponse d) include_meta
  = BaseSearch.serialize (RawMapping d) include_meta.
Proof.
  intros H. rewrite (serialize_dsl d hits), (serialize_raw d hits) by exact H.
  reflexivity.
Qed.

Lemma Forall2_map_image {A B} (R : A -> B -> Prop) (g : A -> B)
      (l : list A) :
  (forall x, In x l -> R x (g x)) -> Forall2 R l (map g l).
Proof.
  induction l as [|x l IH]; intros H; simpl; constructor.
  - apply H. now left.
  - apply IH. intros y Hy. apply H. now right.
Qed.

Lemma serialize_records (dsl : bool) (d : pydict) (hits : list pydict)
      (include_meta : pyval) (g : pydict -> pyval) :
  hits_of d = Some hits ->
  (forall hit, In hit hits -> record_of include_meta hit = Some (g hit)) ->
  BaseSearch.serialize (shape_of dsl d) include_meta = Ok (map g hits).
Proof.
  intros Hd Hg. rewrite (serialize_shape dsl d hits) by exact Hd.
  apply comprehension_Ok_map. intros hit Hin.
  rewrite _hit_conversor_dict. now rewrite (Hg hit Hin).
Qed.

Lemma engine_hit_envelope (hit : pydict) :
  engine_hit hit = true ->
  forallb (fun k => record_has k (PDict hit)) envelope = true
  /\ dict_get "_source" hit = Some (body_of hit)
  /\ forallb (fun k => negb (record_has k (body_of hit))) envelope = true.
Proof.
  unfold engine_hit, body_of. intros H.
  apply andb_true_iff in H as [Henv Hsrc].
  split; [exact Henv|].
  destruct (dict_get "_source" hit) as [[| | | | | |body]|];
    try discriminate.
  split; [reflexivity | exact Hsrc].
Qed.

(** C4.  For a response of either shape whose hits are hits of the engine
    (each with its envelope fields and a [_source] body that has no field of
    those names), [serialize] with [include_meta=False] returns, hit by hit,
    exactly the [_source] body, a record with none of [_id], [_score],
    [_index]; with [include_meta=True] it returns, hit by hit, the whole
    hit, a record that has [_id], [_score] and [_index] and the body under
    [_source]. *)
Theorem serialize_include_meta (dsl : bool) (d : pydict)
        (hits : list pydict) :
  hits_of d = Some hits ->
  forallb engine_hit hits = true ->
  (exists out,
      BaseSearch.serialize (shape_of dsl d) (PBool false) = Ok out
      /\ Forall2 (fun hit r =>
                    r = body_of hit
                    /\ forallb (fun k => negb (record_has k r)) envelope
                       = true) hits out)
  /\ (exists out,
         BaseSearch.serialize (shape_of dsl d) (PBool true) = Ok out
         /\ Forall2 (fun hit r =>
                       r = PDict hit
                       /\ forallb (fun k => record_has k r) envelope = true
                       /\ py_getitem "_source" r = Ok (body_of hit))
                    hits out).
Proof.
  intros Hd Hwf. rewrite forallb_forall in Hwf.
  split.
  - exists (map body_of hits). split.
    + apply serialize_records; [exact Hd|].
      intros hit Hin. unfold record_of; simpl.
      now apply engine_hit_envelope, Hwf.
    + apply Forall2_map_image. intros hit Hin.
      split; [reflexivity|]. now apply engine_hit_envelope, Hwf.
  - exists (map PDict hits). split.
    + apply serialize_records; [exact Hd|]. reflexivity.
    + apply Forall2_map_image. intros hit Hin.
      destruct (engine_hit_envelope hit (Hwf hit Hin)) as (He & Hs & _).
      repeat split; [exact He|]. simpl. now rewrite Hs.
Qed.

Lemma serialize_include_meta_witness :
  hits_of (Fixture.response_of [Fixture.hit1; Fixture.hit2])
  = Some [Fixture.hit1; Fixture.hit2]
  /\ forallb engine_hit [Fixture.hit1; Fixture.hit2] = true
  /\ (exists out,
         BaseSearch.serialize
           (shape_of true (Fixture.response_of [Fixture.hit1; Fixture.hit2]))
           (PBool false) = Ok out
         /\ Forall2 (fun hit r =>
                       r = body_of hit
                       /\ forallb (fun k => negb (record_has k r)) envelope
                          = true) [Fixture.hit1; Fixture.hit2] out).
Proof.
  split; [reflexivity|]. split; [reflexivity|].
  apply (serialize_include_meta true
           (Fixture.response_of [Fixture.hit1; Fixture.hit2])
           [Fixture.hit1; Fixture.hit2]); reflexivity.
Defined.

(** C6.  When [serialize] can convert the hits (the whole hit is asked
    for, or every hit has a [_source]), it returns one record per hit, the
    record of the first hit first and so on down the list: nothing is
    dropped, merged or moved.  An empty hit list gives the empty list, not
    an exception. *)
Theorem serialize_one_record_per_hit (dsl : bool) (d : pydict)
        (hits : list pydict) (include_meta : pyval) :
  hits_of d = Some hits ->
  truthy include_meta || forallb (dict_has "_source") hits = true ->
  exists out,
    BaseSearch.serialize (shape_of dsl d) include_meta = Ok out
    /\ Forall2 (fun hit r => record_of include_meta hit = Some r) hits out
    /\ length out = length hits
    /\ match hits with [] => out = [] | _ :: _ => True end.
Proof.
  intros Hd Hconv.
  set (g := fun hit => match record_of include_meta hit with
                       | Some r => r
                       | None => PNone
                       end).
  assert (Hg : forall hit, In hit hits ->
                           record_of include_meta hit = Some (g hit)).
  { intros hit Hin. unfold g, record_of.
    destruct (truthy include_meta); [reflexivity|].
    simpl in Hconv. rewrite forallb_forall in Hconv.
    specialize (Hconv hit Hin). unfold dict_has in Hconv.
    destruct (dict_get "_source" hit); [reflexivity|discriminate]. }
  exists (map g hits). repeat split.
  - now apply serialize_records.
  - now apply Forall2_map_image.
  - apply length_map.
  - destruct hits; [reflexivity|exact I].
Qed.

Lemma serialize_one_record_per_hit_witness :
  exists out,
    BaseSearch.serialize
      (shape_of true
         (Fixture.response_of [Fixture.hit2; Fixture.hit1; Fixture.hit2]))
      (PBool false) = Ok out
    /\ Forall2 (fun hit r => record_of (PBool false) hit = Some r)
               [Fixture.hit2; Fixture.hit1; Fixture.hit2] out
    /\ length out = 3%nat
    /\ True.
Proof.
  apply (serialize_one_record_per_hit true
           (Fixture.response_of [Fixture.hit2; Fixture.hit1; Fixture.hit2])
           [Fixture.hit2; Fixture.hit1; Fixture.hit2] (PBool false));
    reflexivity.
Defined.

Lemma serialize_shape_invariant_witness :
  BaseSearch.serialize
    (DslResponse (Fixture.response_of [Fixture.hit1; Fixture.hit2]))
    (PBool true)
  = BaseSearch.serialize
      (RawMapping (Fixture.response_of [Fixture.hit1; Fixture.hit2]))
      (PBool true).
Proof.
  apply (serialize_shape_invariant
           (Fixture.response_of [Fixture.hit1; Fixture.hit2])
           [Fixture.hit1; Fixture.hit2] (PBool true)).
  reflexivity.
Defined.

(** ** The suggestion resolver *)

Lemma unwrap_wrap (v : pyval) : unwrap (_wrap v) = v.
Proof. destruct v; reflexivity. Qed.

Lemma py_in_strs_phrase_term (v : pyval) :
  py_in_strs v ["phrase"; "term"] = true ->
  v = PStr "phrase" \/ v = PStr "term".
Proof.
  destruct v; simpl; try discriminate.
  destruct (String.eqb s "phrase") eqn:Ep.
  - apply String.eqb_eq in Ep. subst. now left.
  - destruct (String.eqb s "term") eqn:Et; [|discriminate].
    apply String.eqb_eq in Et. subst. now right.
Qed.

Section Suggest.

Variables (connection : Engine) (index_name : string).
Variables (text field_name : pyval) (suggestion_name : string).

(** [suggest] on a supported kind: one request, then the outcome the answer
    decides. *)
Lemma suggest_supported (kind : string) (log : Log) :
  kind = "phrase" \/ kind = "term" ->
  BaseSearch.suggest connection index_name text field_name (PStr kind)
                     suggestion_name log
  = (match connection log (suggest_request index_name text field_name kind
                                           suggestion_name) with
     | Answer d =>
         if dict_has "suggest" d
         then BaseSearch.suggestion_texts suggestion_name d
         else Raise NotImplementedError
     | Failure status => Raise (TransportError status)
     end,
     log ++ [suggest_request index_name text field_name kind
                             suggestion_name]).
Proof.
  intros [-> | ->];
    unfold BaseSearch.suggest, suggest_request, BaseSearch.search_base,
           bind, execute, raise, lift; simpl;
    match goal with |- context [connection log ?req] =>
      destruct (connection log req) as [d|status] end; simpl;
    try reflexivity;
    destruct (dict_has "suggest" d); reflexivity.
Qed.

End Suggest.

Lemma is_value_error_rbind {A B} (r : result A) (f : A -> result B) :
  is_value_error r = false ->
  (forall a, is_value_error (f a) = false) ->
  is_value_error (rbind r f) = false.
Proof. destruct r; simpl; auto. Qed.

Lemma is_value_error_comprehension {A B} (f : A -> result B) (l : list A) :
  (forall x, is_value_error (f x) = false) ->
  is_value_error (comprehension f l) = false.
Proof.
  intros Hf. induction l as [|x l IH]; simpl; [reflexivity|].
  specialize (Hf x). destruct (f x); [|exact Hf].
  destruct (comprehension f l); [reflexivity|exact IH].
Qed.

Lemma is_value_error_getattr (name : string) (w : wrapped) :
  is_value_error (wrapped_getattr name w) = false.
Proof. destruct w; simpl; try reflexivity. now destruct (dict_get name d). Qed.

Lemma is_value_error_getitem (key : string) (w : wrapped) :
  is_value_error (wrapped_getitem key w) = false.
Proof. destruct w; simpl; try reflexivity. now destruct (dict_get key d). Qed.

Lemma is_value_error_getitem0 (w : wrapped) :
  is_value_error (wrapped_getitem0 w) = false.
Proof.
  destruct w as [d|l|v]; simpl; try reflexivity.
  - now destruct l.
  - destruct v; try reflexivity. now destruct s.
Qed.

Lemma is_value_error_iter (w : wrapped) :
  is_value_error (wrapped_iter w) = false.
Proof. destruct w as [d|l|v]; simpl; try reflexivity. now destruct v. Qed.

Lemma is_value_error_suggestion_texts (name : string) (d : pydict) :
  is_value_error (BaseSearch.suggestion_texts name d) = false.
Proof.
  unfold BaseSearch.suggestion_texts.
  repeat (apply is_value_error_rbind;
          [ first [ apply is_value_error_getattr
                  | apply is_value_error_getitem
                  | apply is_value_error_getitem0
                  | apply is_value_error_iter ]
          | intros ? ]).
  apply is_value_error_comprehension. intros w.
  apply is_value_error_rbind; [apply is_value_error_getattr|reflexivity].
Qed.

(** C7.  A [suggestion_type] outside ["phrase"] and ["term"] makes [suggest]
    raise the [ValueError] of its check with the log of requests unchanged:
    nothing was sent to the engine.  A [suggestion_type] in the set passes
    the check: exactly one request, the suggestion of that kind, is sent,
    and whatever the outcome it is no [ValueError]. *)
Theorem suggest_checks_suggestion_type
        (connection : Engine) (index_name : string)
        (text field_name suggestion_type : pyval) (suggestion_name : string)
        (log : Log) :
  (py_in_strs suggestion_type ["phrase"; "term"] = false ->
   BaseSearch.suggest connection index_name text field_name suggestion_type
                      suggestion_name log
   = (Raise invalid_suggestion_type, log))
  /\ (py_in_strs suggestion_type ["phrase"; "term"] = true ->
      is_value_error
        (fst (BaseSearch.suggest connection index_name text field_name
                                 suggestion_type suggestion_name log))
      = false
      /\ exists kind,
          suggestion_type = PStr kind
          /\ snd (BaseSearch.suggest connection index_name text field_name
                                     suggestion_type suggestion_name log)
             = log ++ [suggest_request index_name text field_name kind
                                       suggestion_name]).
Proof.
  split.
  - intros H. unfold BaseSearch.suggest. rewrite H. reflexivity.
  - intros H.
    assert (exists kind, suggestion_type = PStr kind
                         /\ (kind = "phrase" \/ kind = "term"))
      as (kind & -> & Hk).
    { destruct (py_in_strs_phrase_term _ H) as [-> | ->];
        eexists; split; eauto. }
    rewrite (suggest_supported connection index_name text field_name
                               suggestion_name kind log Hk).
    split; [|exists kind; split; reflexivity].
    simpl. destruct (connection log _) as [d|status]; [|reflexivity].
    destruct (dict_has "suggest" d); [|reflexivity].
    apply is_value_error_suggestion_texts.
Qed.

Lemma suggest_checks_suggestion_type_witness :
  BaseSearch.suggest Fixture.engine "twitter" (PStr "insta") (PStr "username")
                     (PStr "completion") "s1" []
  = (Raise invalid_suggestion_type, [])
  /\ is_value_error
       (fst (BaseSearch.suggest Fixture.engine "twitter" (PStr "insta")
                                (PStr "username") (PStr "term") "s1" []))
     = false.
Proof.
  split.
  - apply (proj1 (suggest_checks_suggestion_type
                    Fixture.engine "twitter" (PStr "insta") (PStr "username")
                    (PStr "completion") "s1" [])).
    reflexivity.
  - apply (proj2 (suggest_checks_suggestion_type
                    Fixture.engine "twitter" (PStr "insta") (PStr "username")
                    (PStr "term") "s1" [])).
    reflexivity.
Defined.

Lemma option_texts_comprehension (options texts : list pyval) :
  option_texts options = Some texts ->
  comprehension
    (fun suggest => rbind (wrapped_getattr "text" suggest)
                          (fun t => Ok (unwrap t)))
    (map _wrap options)
  = Ok texts.
Proof.
  revert texts. induction options as [|o options IH]; intros texts H.
  - injection H as <-. reflexivity.
  - simpl in H. destruct o; try discriminate.
    destruct (dict_get "text" d) as [t|] eqn:Et; [|discriminate].
    destruct (option_texts options) as [ts|]; [|discriminate].
    injection H as <-. simpl. rewrite Et. simpl.
    rewrite (IH ts eq_refl). now rewrite unwrap_wrap.
Qed.

(** C8.  On a supported kind, when the engine answers the suggest request:
    an answer without a suggest section makes [suggest] raise
    [NotImplementedError], after that one request, instead of returning an
    empty list; an answer with one is read at the first entry listed under
    the request's name, whatever entries follow, and the texts of that
    entry's options are returned in the order the engine listed them. *)
Theorem suggest_reads_first_entry
        (connection : Engine) (index_name : string)
        (text field_name : pyval) (kind suggestion_name : string)
        (log : Log) (d : pydict) :
  kind = "phrase" \/ kind = "term" ->
  connection log (suggest_request index_name text field_name kind
                                  suggestion_name) = Answer d ->
  (dict_has "suggest" d = false ->
   BaseSearch.suggest connection index_name text field_name (PStr kind)
                      suggestion_name log
   = (Raise NotImplementedError,
      log ++ [suggest_request index_name text field_name kind
                              suggestion_name]))
  /\ (forall (sug entry : pydict) (rest options texts : list pyval),
        dict_get "suggest" d = Some (PDict sug) ->
        dict_get suggestion_name sug = Some (PList (PDict entry :: rest)) ->
        dict_get "options" entry = Some (PList options) ->
        option_texts options = Some texts ->
        BaseSearch.suggest connection index_name text field_name (PStr kind)
                           suggestion_name log
        = (Ok texts,
           log ++ [suggest_request index_name text field_name kind
                                   suggestion_name])).
Proof.
  intros Hk Hans.
  rewrite (suggest_supported connection index_name text field_name
                             suggestion_name kind log Hk), Hans.
  split.
  - intros ->. reflexivity.
  - intros sug entry rest options texts Hsug Hname Hopts Htexts.
    unfold dict_has. rewrite Hsug. f_equal.
    unfold BaseSearch.suggestion_texts; simpl.
    rewrite Hsug; simpl. rewrite Hname; simpl. rewrite Hopts; simpl.
    now apply option_texts_comprehension.
Qed.

Lemma suggest_reads_first_entry_witness :
  BaseSearch.suggest Fixture.empty_index_engine "instagram" (PStr "insta")
                     (PStr "username") (PStr "term") "s1" []
  = (Raise NotImplementedError,
     [suggest_request "instagram" (PStr "insta") (PStr "username") "term"
                      "s1"])
  /\ BaseSearch.suggest Fixture.engine "twitter" (PStr "hapy new yaer")
                        (PStr "text") (PStr "phrase") "post_suggest" []
     = (Ok [PStr "happy new year"; PStr "happy new years"],
        [suggest_request "twitter" (PStr "hapy new yaer") (PStr "text")
                         "phrase" "post_suggest"]).
Proof.
  split.
  - apply (proj1 (suggest_reads_first_entry
                    Fixture.empty_index_engine "instagram" (PStr "insta")
                    (PStr "username") "term" "s1" []
                    (Fixture.response_of [])
                    (or_intror eq_refl) eq_refl)).
    reflexivity.
  - eapply (proj2 (suggest_reads_first_entry
                     Fixture.engine "twitter" (PStr "hapy new yaer")
                     (PStr "text") "phrase" "post_suggest" []
                     (Fixture.suggest_response
                        "post_suggest" "hapy new yaer"
                        ["happy new year"; "happy new years"])
                     (or_introl eq_refl) eq_refl));
      reflexivity.
Defined.

(** ** The escalation *)

Section Escalation.

Variables (connection : Engine) (index_name : string).
Variable _search_post : pyval -> string -> kwargs -> M (list pyval).

Let search_post := BaseSearch.search_post connection index_name _search_post.
Let suggest_post := BaseSearch.suggest_post connection index_name _search_post.
Let suggest := BaseSearch.suggest connection index_name.

Lemma search_post_strict_raises text kw log e log1 :
  _search_post text "and" kw log = (Raise e, log1) ->
  search_post text kw log = (Raise e, log1).
Proof.
  intros H. unfold search_post, BaseSearch.search_post, bind.
  now rewrite H.
Qed.

Lemma search_post_strict_hit text kw log posts log1 :
  _search_post text "and" kw log = (Ok posts, log1) ->
  posts <> [] ->
  search_post text kw log = (Ok posts, log1).
Proof.
  intros H Hne. unfold search_post, BaseSearch.search_post, bind.
  rewrite H. destruct posts; [contradiction|reflexivity].
Qed.

Lemma search_post_relaxed text kw log log1 :
  _search_post text "and" kw log = (Ok [], log1) ->
  search_post text kw log
  = match _search_post text "or" kw log1 with
    | (Ok (p :: ps), log2) => (Ok (p :: ps), log2)
    | (Ok [], log2) => suggest_post text kw log2
    | (Raise e, log2) => (Raise e, log2)
    end.
Proof.
  intros H. unfold search_post, BaseSearch.search_post, bind.
  rewrite H.
  destruct (_search_post text "or" kw log1) as [[[|p ps]|e] log2];
    reflexivity.
Qed.

Lemma suggest_post_unfold text kw log :
  suggest_post text kw log
  = match suggest text (PStr "text") (PStr "phrase") "post_suggest" log with
    | (Ok (first :: _), log') => _search_post first "or" kw log'
    | (Ok [], log') => (Ok [], log')
    | (Raise e, log') => (Raise e, log')
    end.
Proof.
  unfold suggest_post, BaseSearch.suggest_post, bind, suggest.
  destruct (BaseSearch.suggest _ _ _ _ _ _ log) as [[[|first rest]|e] log'];
    reflexivity.
Qed.

(** C1.  [search_post] starts with [_search_post] on operator ["and"]: an
    exception of that call is the outcome, and a non-empty list from it is
    the result, in both cases with the state that call left, so nothing ran
    after it.  When that list is empty, [_search_post] runs on operator
    ["or"], from the state the first call left; a non-empty list from it is
    the result, and the state is the one the second call left: the
    suggestion tier did not run. *)
Theorem search_post_escalation_order (text : pyval) (kw : kwargs)
        (log : Log) :
  (forall e log1,
      _search_post text "and" kw log = (Raise e, log1) ->
      BaseSearch.search_post connection index_name _search_post text kw log
      = (Raise e, log1))
  /\ (forall posts log1,
      _search_post text "and" kw log = (Ok posts, log1) ->
      posts <> [] ->
      BaseSearch.search_post connection index_name _search_post text kw log
      = (Ok posts, log1))
  /\ (forall log1 posts log2,
        _search_post text "and" kw log = (Ok [], log1) ->
        _search_post text "or" kw log1 = (Ok posts, log2) ->
        posts <> [] ->
        BaseSearch.search_post connection index_name _search_post text kw log
        = (Ok posts, log2)).
Proof.
  split; [|split].
  - intros e log1 H. now apply search_post_strict_raises.
  - intros posts log1 H Hne. now apply search_post_strict_hit.
  - intros log1 posts log2 Hand Hor Hne.
    fold search_post. rewrite (search_post_relaxed _ _ _ _ Hand), Hor.
    destruct posts; [contradiction|reflexivity].
Qed.

(** C2.  When both tiers returned the empty list, [search_post] asks the
    resolver for a ["phrase"] suggestion on field ["text"] for the original
    text, which costs one request.  With a first candidate, the outcome of
    [search_post] is the outcome of one more [_search_post], on that
    candidate, operator ["or"] and the same keyword arguments, be the list
    it returns empty or not; with no candidate it is the empty list; an
    exception of the resolver is passed on.  Nothing runs after that. *)
Theorem search_post_suggestion_tier (text : pyval) (kw : kwargs)
        (log log1 log2 : Log) :
  _search_post text "and" kw log = (Ok [], log1) ->
  _search_post text "or" kw log1 = (Ok [], log2) ->
  let request := suggest_request index_name text (PStr "text") "phrase"
                                 "post_suggest" in
  let resolved := BaseSearch.suggest connection index_name text (PStr "text")
                                     (PStr "phrase") "post_suggest" log2 in
  snd resolved = log2 ++ [request]
  /\ BaseSearch.search_post connection index_name _search_post text kw log
     = match fst resolved with
       | Ok (first :: _) => _search_post first "or" kw (log2 ++ [request])
       | Ok [] => (Ok [], log2 ++ [request])
       | Raise e => (Raise e, log2 ++ [request])
       end.
Proof.
  intros Hand Hor request resolved.
  assert (Hsnd : snd resolved = log2 ++ [request]).
  { unfold resolved.
    now rewrite (suggest_supported connection index_name text (PStr "text")
                                   "post_suggest" "phrase" log2)
      by now left. }
  split; [exact Hsnd|].
  fold search_post. rewrite (search_post_relaxed _ _ _ _ Hand), Hor.
  rewrite suggest_post_unfold. unfold suggest. fold resolved.
  rewrite <- Hsnd. destruct resolved as [[[|first rest]|e] log3]; reflexivity.
Qed.

End Escalation.

Lemma search_post_escalation_order_witness :
  TwitterSearch.search_post Fixture.settings Fixture.engine
    (PStr "happy new year") [] []
  = (Ok [PDict (Fixture.tweet "1" "happy new year" "alice")],
     [TwitterSearch.build_search Fixture.settings
        (PStr "happy new year") "and" []])
  /\ TwitterSearch.search_post Fixture.settings Fixture.engine
       (PStr "new yaer") [] []
     = (Ok [PDict (Fixture.tweet "2" "new car" "bob");
            PDict (Fixture.tweet "1" "happy new year" "alice");
            PDict (Fixture.tweet "2" "new car" "bob")],
        [TwitterSearch.build_search Fixture.settings
           (PStr "new yaer") "and" [];
         TwitterSearch.build_search Fixture.settings
           (PStr "new yaer") "or" []]).
Proof.
  split.
  - apply (proj1 (proj2 (search_post_escalation_order
                           Fixture.engine "twitter"
                           (TwitterSearch._search_post Fixture.settings
                                                       Fixture.engine)
                           (PStr "happy new year") [] []))).
    + reflexivity.
    + discriminate.
  - apply (proj2 (proj2 (search_post_escalation_order
                           Fixture.engine "twitter"
                           (TwitterSearch._search_post Fixture.settings
                                                       Fixture.engine)
                           (PStr "new yaer") [] []))
                 [TwitterSearch.build_search Fixture.settings
                    (PStr "new yaer") "and" []]).
    + reflexivity.
    + reflexivity.
    + discriminate.
Defined.

Lemma search_post_suggestion_tier_witness :
  TwitterSearch.search_post Fixture.settings Fixture.engine
    (PStr "hapy new yaer") [("username_owner", PStr "alice")] []
  = TwitterSearch._search_post Fixture.settings Fixture.engine
      (PStr "happy new year") "or" [("username_owner", PStr "alice")]
      [TwitterSearch.build_search Fixture.settings
         (PStr "hapy new yaer") "and" [("username_owner", PStr "alice")];
       TwitterSearch.build_search Fixture.settings
         (PStr "hapy new yaer") "or" [("username_owner", PStr "alice")];
       suggest_request "twitter" (PStr "hapy new yaer") (PStr "text")
                       "phrase" "post_suggest"].
Proof.
  apply (proj2 (search_post_suggestion_tier
                  Fixture.engine "twitter"
                  (TwitterSearch._search_post Fixture.settings Fixture.engine)
                  (PStr "hapy new yaer") [("username_owner", PStr "alice")]
                  []
                  [TwitterSearch.build_search Fixture.settings
                     (PStr "hapy new yaer") "and"
                     [("username_owner", PStr "alice")]]
                  [TwitterSearch.build_search Fixture.settings
                     (PStr "hapy new yaer") "and"
                     [("username_owner", PStr "alice")];
                   TwitterSearch.build_search Fixture.settings
                     (PStr "hapy new yaer") "or"
                     [("username_owner", PStr "alice")]]
                  eq_refl eq_refl)).
Defined.

(** ** A search method is one round trip *)

Lemma twitter_search_post_closed (SETTINGS : Settings) (connection : Engine)
      (text : pyval) (operator : string) (kw : kwargs) (log : Log) :
  TwitterSearch._search_post SETTINGS connection text operator kw log
  = if accepts TwitterSearch.keywords kw then
      (outcome (connection log (TwitterSearch.build_search
                                  SETTINGS text operator kw))
               (kwarg "include_meta" (PBool false) kw),
       log ++ [TwitterSearch.build_search SETTINGS text operator kw])
    else
      (Raise (TypeError "_search_post() got an unexpected keyword argument"),
       log).
Proof.
  unfold TwitterSearch._search_post.
  destruct (accepts TwitterSearch.keywords kw); cbn [negb]; [|reflexivity].
  unfold bind, execute, lift, outcome.
  destruct (connection log _); reflexivity.
Qed.

Lemma instagram_search_post_closed (SETTINGS : Settings)
      (connection : Engine) (text : pyval) (operator : string) (kw : kwargs)
      (log : Log) :
  InstagramSearch._search_post SETTINGS connection text operator kw log
  = if accepts InstagramSearch.keywords kw then
      (outcome (connection log (InstagramSearch.build_search
                                  SETTINGS text operator kw))
               (kwarg "include_meta" (PBool false) kw),
       log ++ [InstagramSearch.build_search SETTINGS text operator kw])
    else
      (Raise (TypeError "_search_post() got an unexpected keyword argument"),
       log).
Proof.
  unfold InstagramSearch._search_post.
  destruct (accepts InstagramSearch.keywords kw); cbn [negb]; [|reflexivity].
  unfold bind, execute, lift, outcome.
  destruct (connection log _); reflexivity.
Qed.

(** ** Filters at the public interface *)

Lemma construct_filters search text operator fields size includes excludes :
  search_filters (BaseSearch.construct_multi_field_search
                    search text operator fields size includes excludes)
  = search_filters search.
Proof.
  unfold search_filters at 1. rewrite build_query.
  fold (search_filters
          (Search_query (MultiMatch text operator fields) search)).
  rewrite search_filters_query. apply app_nil_r.
Qed.

Section PublicFilters.

Variables (SETTINGS : Settings) (connection : Engine).
Variables (text : pyval) (search_operator : string).

Lemma twitter_filters (kw : kwargs) :
  search_filters (TwitterSearch.build_search SETTINGS text search_operator kw)
  = (if is_not_none (kwarg "username_timeline" PNone kw)
     then [filter_on "username_timeline" (kwarg "username_timeline" PNone kw)]
     else [])
    ++ (if is_not_none (kwarg "username_owner" PNone kw)
        then [filter_on "username_owner" (kwarg "username_owner" PNone kw)]
        else []).
Proof.
  unfold TwitterSearch.build_search. rewrite construct_filters.
  unfold TwitterSearch._filter_username_owner,
         TwitterSearch._filter_username_timeline, filter_on.
  destruct (is_not_none (kwarg "username_timeline" PNone kw)),
           (is_not_none (kwarg "username_owner" PNone kw));
    rewrite ?search_filters_filter; reflexivity.
Qed.

Lemma instagram_filters (kw : kwargs) :
  search_filters
    (InstagramSearch.build_search SETTINGS text search_operator kw)
  = if truthy (kwarg "username" PNone kw)
    then [filter_on "username" (kwarg "username" PNone kw)]
    else [].
Proof.
  unfold InstagramSearch.build_search. rewrite construct_filters.
  unfold InstagramSearch._filter_username, filter_on.
  destruct (truthy (kwarg "username" PNone kw));
    rewrite ?search_filters_filter; reflexivity.
Qed.

Lemma instagram_build_search_falsy (kw : kwargs) (u : pyval) :
  truthy u = false ->
  InstagramSearch.build_search SETTINGS text search_operator
                               (dict_set "username" u kw)
  = InstagramSearch.build_search SETTINGS text search_operator
                                 (dict_set "username" PNone kw).
Proof.
  intros Hu. unfold InstagramSearch.build_search.
  rewrite !kwarg_set_same, Hu; simpl.
  rewrite !(kwarg_set_other "search_size"), !(kwarg_set_other "includes"),
          !(kwarg_set_other "excludes") by discriminate.
  reflexivity.
Qed.

Lemma accepts_dict_set (names : list string) (k : string) (v : pyval)
      (kw : kwargs) :
  existsb (String.eqb k) names = true ->
  accepts names kw = true ->
  accepts names (dict_set k v kw) = true.
Proof.
  unfold accepts, dict_keys. intros Hk.
  induction kw as [|[k' v'] kw IH]; simpl.
  - intros _. now rewrite Hk.
  - intros H. apply andb_true_iff in H as [H1 H2].
    destruct (String.eqb k k'); simpl; rewrite H1; simpl; auto.
Qed.

(** C10.  What the two [_search_post] methods send for an empty filter
    value, on keywords their signatures accept.  With a falsy [username],
    the empty string and the empty list among them,
    [InstagramSearch._search_post] sends one request, without any filter
    clause, the very request it sends when the username is None, and its
    outcome is the outcome of that call.  [TwitterSearch._search_post]
    sends one request that carries a filter clause on [username_owner], and
    on [username_timeline], for every value that is not None; for the empty
    string the filter clauses of that request are the one [term] clause on
    the empty string, where the Instagram request has none. *)
Theorem empty_username_instagram_vs_twitter
        (kwi kwt : kwargs) (u v : pyval) (log : Log) :
  accepts InstagramSearch.keywords kwi = true ->
  accepts TwitterSearch.keywords kwt = true ->
  truthy u = false ->
  v <> PNone ->
  (exists req,
      snd (InstagramSearch._search_post SETTINGS connection text
             search_operator (dict_set "username" u kwi) log)
      = log ++ [req]
      /\ search_filters req = []
      /\ snd (InstagramSearch._search_post SETTINGS connection text
                search_operator (dict_set "username" PNone kwi) log)
         = log ++ [req])
  /\ InstagramSearch._search_post SETTINGS connection text search_operator
                                  (dict_set "username" u kwi) log
     = InstagramSearch._search_post SETTINGS connection text search_operator
                                    (dict_set "username" PNone kwi) log
  /\ (exists req,
        snd (TwitterSearch._search_post SETTINGS connection text
               search_operator (dict_set "username_owner" v kwt) log)
        = log ++ [req]
        /\ In (filter_on "username_owner" v) (search_filters req))
  /\ (exists req,
        snd (TwitterSearch._search_post SETTINGS connection text
               search_operator (dict_set "username_timeline" v kwt) log)
        = log ++ [req]
        /\ In (filter_on "username_timeline" v) (search_filters req))
  /\ (exists req,
        snd (InstagramSearch._search_post SETTINGS connection text
               search_operator [("username", PStr "")] log)
        = log ++ [req]
        /\ search_filters req = [])
  /\ (exists req,
        snd (InstagramSearch._search_post SETTINGS connection text
               search_operator [("username", PList [])] log)
        = log ++ [req]
        /\ search_filters req = [])
  /\ (exists req,
        snd (TwitterSearch._search_post SETTINGS connection text
               search_operator [("username_owner", PStr "")] log)
        = log ++ [req]
        /\ search_filters req = [Term "username_owner" (PStr "")])
  /\ (exists req,
        snd (TwitterSearch._search_post SETTINGS connection text
               search_operator [("username_timeline", PStr "")] log)
        = log ++ [req]
        /\ search_filters req = [Term "username_timeline" (PStr "")]).
Proof.
  intros Hi Ht Hu Hv.
  assert (Hnn : is_not_none v = true) by (destruct v; auto; contradiction).
  assert (Hiu : forall x, accepts InstagramSearch.keywords
                                  (dict_set "username" x kwi) = true)
    by (intros x; now apply accepts_dict_set).
  assert (Hto : accepts TwitterSearch.keywords
                        (dict_set "username_owner" v kwt) = true)
    by now apply accepts_dict_set.
  assert (Htt : accepts TwitterSearch.keywords
                        (dict_set "username_timeline" v kwt) = true)
    by now apply accepts_dict_set.
  split; [|split; [|split; [|split; [|split; [|split; [|split]]]]]].
  - eexists. rewrite !instagram_search_post_closed, !Hiu. cbn [snd].
    split; [reflexivity|]. split.
    + rewrite instagram_filters, kwarg_set_same. now rewrite Hu.
    + now rewrite (instagram_build_search_falsy kwi u Hu).
  - unfold InstagramSearch._search_post.
    rewrite (accepts_set _ "username" u PNone).
    rewrite instagram_build_search_falsy by exact Hu.
    rewrite !(kwarg_set_other "include_meta") by discriminate.
    reflexivity.
  - eexists. rewrite twitter_search_post_closed, Hto. cbn [snd].
    split; [reflexivity|].
    rewrite twitter_filters, kwarg_set_same, Hnn.
    apply in_or_app. right. now left.
  - eexists. rewrite twitter_search_post_closed, Htt. cbn [snd].
    split; [reflexivity|].
    rewrite twitter_filters, kwarg_set_same, Hnn.
    apply in_or_app. left. now left.
  - eexists. rewrite instagram_search_post_closed.
    change (accepts InstagramSearch.keywords [("username", PStr "")])
      with true.
    cbn [snd]. split; [reflexivity|]. now rewrite instagram_filters.
  - eexists. rewrite instagram_search_post_closed.
    change (accepts InstagramSearch.keywords [("username", PList [])])
      with true.
    cbn [snd]. split; [reflexivity|]. now rewrite instagram_filters.
  - eexists. rewrite twitter_search_post_closed.
    change (accepts TwitterSearch.keywords [("username_owner", PStr "")])
      with true.
    cbn [snd]. split; [reflexivity|]. now rewrite twitter_filters.
  - eexists. rewrite twitter_search_post_closed.
    change (accepts TwitterSearch.keywords [("username_timeline", PStr "")])
      with true.
    cbn [snd]. split; [reflexivity|]. now rewrite twitter_filters.
Qed.

End PublicFilters.

Lemma empty_username_instagram_vs_twitter_witness :
  (exists req,
      snd (InstagramSearch._search_post Fixture.settings Fixture.engine
             (PStr "new car") "and"
             (dict_set "username" (PList []) [("search_size", PInt 3)]) [])
      = [] ++ [req]
      /\ search_filters req = []
      /\ snd (InstagramSearch._search_post Fixture.settings Fixture.engine
                (PStr "new car") "and"
                (dict_set "username" PNone [("search_size", PInt 3)]) [])
         = [] ++ [req])
  /\ (exists req,
        snd (TwitterSearch._search_post Fixture.settings Fixture.engine
               (PStr "new car") "and"
               (dict_set "username_owner" (PStr "")
                         [("search_size", PInt 3)]) [])
        = [] ++ [req]
        /\ In (filter_on "username_owner" (PStr "")) (search_filters req)).
Proof.
  pose proof (empty_username_instagram_vs_twitter
                Fixture.settings Fixture.engine (PStr "new car") "and"
                [("search_size", PInt 3)] [("search_size", PInt 3)]
                (PList []) (PStr "") [] eq_refl eq_refl eq_refl) as H.
  assert (Hv : PStr "" <> PNone) by discriminate.
  destruct (H Hv) as (H1 & _ & H3 & _).
  split; [exact H1 | exact H3].
Defined.

(** ** One request per tier, and the size cap on what comes back *)

Section Requests.

Variables (SETTINGS : Settings) (connection : Engine).

Lemma twitter_search_post_log text operator kw log :
  snd (TwitterSearch._search_post SETTINGS connection text operator kw log)
  = if accepts TwitterSearch.keywords kw
    then log ++ [TwitterSearch.build_search SETTINGS text operator kw]
    else log.
Proof.
  unfold TwitterSearch._search_post.
  destruct (accepts TwitterSearch.keywords kw); simpl; [|reflexivity].
  unfold bind, execute, lift.
  destruct (connection log _); reflexivity.
Qed.

Lemma instagram_search_post_log text operator kw log :
  snd (InstagramSearch._search_post SETTINGS connection text operator kw log)
  = if accepts InstagramSearch.keywords kw
    then log ++ [InstagramSearch.build_search SETTINGS text operator kw]
    else log.
Proof.
  unfold InstagramSearch._search_post.
  destruct (accepts InstagramSearch.keywords kw); simpl; [|reflexivity].
  unfold bind, execute, lift.
  destruct (connection log _); reflexivity.
Qed.

Lemma build_search_size_cap text operator kw n :
  kwarg "search_size" (PInt 5) kw = PInt n ->
  size_cap (TwitterSearch.build_search SETTINGS text operator kw) = Some n.
Proof.
  intros Hn. unfold TwitterSearch.build_search, size_cap.
  rewrite build_params, dict_get_set_same. now rewrite Hn.
Qed.

Hypothesis engine_contract : honours_size connection.

(** With an engine that honours [size], a Twitter search returns at most
    [search_size] records, 5 when the keyword is left out. *)
Lemma twitter_search_post_capped text operator kw log posts log' n :
  kwarg "search_size" (PInt 5) kw = PInt n ->
  TwitterSearch._search_post SETTINGS connection text operator kw log
  = (Ok posts, log') ->
  Z.of_nat (length posts) <= n.
Proof.
  intros Hn. unfold TwitterSearch._search_post.
  destruct (accepts TwitterSearch.keywords kw); cbn [negb];
    [|unfold raise; discriminate].
  unfold bind, execute, lift.
  destruct (connection log _) as [d|status] eqn:Hans; [|discriminate].
  destruct (engine_contract _ _ _ Hans) as (hits & Hhits & Hcap).
  specialize (Hcap n (build_search_size_cap _ _ _ _ Hn)).
  rewrite (serialize_dsl d hits) by exact Hhits.
  intros H. injection H as H _.
  apply comprehension_Ok_Forall2 in H. apply Forall2_length in H.
  rewrite <- H. exact Hcap.
Qed.

End Requests.

(** *** Examples on the small index *)

Example serialize_without_meta :
  BaseSearch.serialize
    (DslResponse (Fixture.response_of [Fixture.hit1; Fixture.hit2]))
    (PBool false)
  = Ok [PDict (Fixture.tweet "1" "happy new year" "alice");
        PDict (Fixture.tweet "2" "new car" "bob")].
Proof. reflexivity. Qed.

Example serialize_with_meta :
  BaseSearch.serialize
    (RawMapping (Fixture.response_of [Fixture.hit2; Fixture.hit1]))
    (PBool true)
  = Ok [PDict Fixture.hit2; PDict Fixture.hit1].
Proof. reflexivity. Qed.

Example twitter_search_strict :
  TwitterSearch.search_post Fixture.settings Fixture.engine
    (PStr "happy new year") [] []
  = (Ok [PDict (Fixture.tweet "1" "happy new year" "alice")],
     [TwitterSearch.build_search Fixture.settings
        (PStr "happy new year") "and" []]).
Proof. reflexivity. Qed.

Example twitter_search_corrected :
  TwitterSearch.search_post Fixture.settings Fixture.engine
    (PStr "hapy new yaer") [("username_owner", PStr "alice")] []
  = (Ok [PDict (Fixture.tweet "1" "happy new year" "alice")],
     [TwitterSearch.build_search Fixture.settings
        (PStr "hapy new yaer") "and" [("username_owner", PStr "alice")];
      TwitterSearch.build_search Fixture.settings
        (PStr "hapy new yaer") "or" [("username_owner", PStr "alice")];
      Search_suggest "post_suggest" (PStr "hapy new yaer")
        [("phrase", PDict [("field", PStr "text"); ("max_errors", PInt 3)])]
        (Search_new "twitter");
      TwitterSearch.build_search Fixture.settings
        (PStr "happy new year") "or" [("username_owner", PStr "alice")]]).
Proof. reflexivity. Qed.

(** * Further properties of [crud.py] *)

(** ** The requests of the two search classes *)

Lemma twitter_build_search_closed (SETTINGS : Settings) (text : pyval)
      (search_operator : string) (kw : kwargs) :
  TwitterSearch.build_search SETTINGS text search_operator kw
  = mkSearch (TWITTER_INDEX_NAME SETTINGS)
             (Some (post_query text search_operator
                               (twitter_filter_clauses kw)))
             (projection (kwarg "includes" PNone kw)
                         (kwarg "excludes" PNone kw))
             [("size", kwarg "search_size" (PInt 5) kw)]
             [].
Proof.
  unfold TwitterSearch.build_search, twitter_filter_clauses, projection,
         BaseSearch.construct_multi_field_search,
         TwitterSearch._filter_username_owner,
         TwitterSearch._filter_username_timeline, filter_on,
         BaseSearch.search_base, TwitterSearch.index_name.
  destruct (is_not_none (kwarg "username_timeline" PNone kw)),
           (is_not_none (kwarg "username_owner" PNone kw)),
           (truthy (kwarg "includes" PNone kw)),
           (truthy (kwarg "excludes" PNone kw)); reflexivity.
Qed.

Lemma instagram_build_search_closed (SETTINGS : Settings) (text : pyval)
      (search_operator : string) (kw : kwargs) :
  InstagramSearch.build_search SETTINGS text search_operator kw
  = mkSearch (INSTAGRAM_INDEX_NAME SETTINGS)
             (Some (post_query text search_operator
                               (instagram_filter_clauses kw)))
             (projection (kwarg "includes" PNone kw)
                         (kwarg "excludes" PNone kw))
             [("size", kwarg "search_size" (PInt 5) kw)]
             [].
Proof.
  unfold InstagramSearch.build_search, instagram_filter_clauses, projection,
         BaseSearch.construct_multi_field_search,
         InstagramSearch._filter_username, filter_on,
         BaseSearch.search_base, InstagramSearch.index_name.
  destruct (truthy (kwarg "username" PNone kw)),
           (truthy (kwarg "includes" PNone kw)),
           (truthy (kwarg "excludes" PNone kw)); reflexivity.
Qed.

(** X1.  What [TwitterSearch._search_post] does on keywords its signature
    accepts, in full.  It sends exactly one request: on the Twitter index;
    with the [multi_match] on field [text] for the given text and operator,
    alone when no filter applies and otherwise as the one [must] clause of a
    [Bool] whose filter list is the timeline filter followed by the owner
    filter, each present when its keyword is not None; with the projection
    of the truthy [includes] and [excludes]; with the [size] parameter
    [search_size], 5 when the keyword is absent; with no suggest section.
    Its outcome is the engine's answer to that request, serialized as a DSL
    response under [include_meta], or the engine's failure. *)
Theorem twitter_request_shape (SETTINGS : Settings) (connection : Engine)
        (text : pyval) (search_operator : string) (kw : kwargs)
        (log : Log) :
  accepts TwitterSearch.keywords kw = true ->
  let req :=
    mkSearch (TWITTER_INDEX_NAME SETTINGS)
             (Some (post_query text search_operator
                               (twitter_filter_clauses kw)))
             (projection (kwarg "includes" PNone kw)
                         (kwarg "excludes" PNone kw))
             [("size", kwarg "search_size" (PInt 5) kw)]
             [] in
  TwitterSearch._search_post SETTINGS connection text search_operator kw log
  = (outcome (connection log req) (kwarg "include_meta" (PBool false) kw),
     log ++ [req]).
Proof.
  intros Hacc req.
  rewrite twitter_search_post_closed, Hacc.
  now rewrite twitter_build_search_closed.
Qed.

Lemma twitter_request_shape_witness :
  TwitterSearch._search_post Fixture.settings Fixture.engine
    (PStr "happy new year") "or"
    [("username_owner", PStr "alice"); ("search_size", PInt 3)] []
  = (Ok [PDict (Fixture.tweet "1" "happy new year" "alice")],
     [] ++ [mkSearch "twitter"
              (Some (Bool [MultiMatch (PStr "happy new year") "or" ["text"]]
                          [Term "username_owner" (PStr "alice")]))
              PNone [("size", PInt 3)] []]).
Proof.
  apply (twitter_request_shape
           Fixture.settings Fixture.engine (PStr "happy new year") "or"
           [("username_owner", PStr "alice"); ("search_size", PInt 3)] []
           eq_refl).
Defined.

(** X2.  What [InstagramSearch._search_post] does on keywords its
    signature accepts, in full.  It sends exactly one request: on the
    Instagram index; with the [multi_match] on field [text], alone unless
    [username] is truthy, in which case it is the one [must] clause of a
    [Bool] whose only filter is the username filter; projection, size and
    suggest section as for Twitter.  Its outcome is the engine's answer to
    that request, serialized as a DSL response under [include_meta], or the
    engine's failure. *)
Theorem instagram_request_shape (SETTINGS : Settings) (connection : Engine)
        (text : pyval) (search_operator : string) (kw : kwargs)
        (log : Log) :
  accepts InstagramSearch.keywords kw = true ->
  let req :=
    mkSearch (INSTAGRAM_INDEX_NAME SETTINGS)
             (Some (post_query text search_operator
                               (instagram_filter_clauses kw)))
             (projection (kwarg "includes" PNone kw)
                         (kwarg "excludes" PNone kw))
             [("size", kwarg "search_size" (PInt 5) kw)]
             [] in
  InstagramSearch._search_post SETTINGS connection text search_operator kw
                               log
  = (outcome (connection log req) (kwarg "include_meta" (PBool false) kw),
     log ++ [req]).
Proof.
  intros Hacc req.
  rewrite instagram_search_post_closed, Hacc.
  now rewrite instagram_build_search_closed.
Qed.

Lemma instagram_request_shape_witness :
  InstagramSearch._search_post Fixture.settings Fixture.engine
    (PStr "happy new year") "and"
    [("username", PList [PStr "alice"; PStr "bob"]);
     ("includes", PList [PStr "text"]); ("include_meta", PBool true)] []
  = (Ok [PDict Fixture.hit1],
     [] ++ [mkSearch "instagram"
              (Some (Bool [MultiMatch (PStr "happy new year") "and" ["text"]]
                          [Terms "username"
                                 (PList [PStr "alice"; PStr "bob"])]))
              (PDict [("includes", PList [PStr "text"])])
              [("size", PInt 5)] []]).
Proof.
  apply (instagram_request_shape
           Fixture.settings Fixture.engine (PStr "happy new year") "and"
           [("username", PList [PStr "alice"; PStr "bob"]);
            ("includes", PList [PStr "text"]); ("include_meta", PBool true)]
           [] eq_refl).
Defined.

(** X3.  A keyword outside the signature of [_search_post] makes
    [search_post] raise [TypeError] at its first tier with nothing sent to
    the engine, for both classes.  The filter keywords are not shared:
    [InstagramSearch] rejects [username_owner] and [username_timeline],
    [TwitterSearch] rejects [username]. *)
Theorem search_post_unknown_keyword (SETTINGS : Settings)
        (connection : Engine) (text : pyval) (kw : kwargs) (log : Log)
        (v : pyval) :
  (accepts TwitterSearch.keywords kw = false ->
   exists msg,
     TwitterSearch.search_post SETTINGS connection text kw log
     = (Raise (TypeError msg), log))
  /\ (accepts InstagramSearch.keywords kw = false ->
      exists msg,
        InstagramSearch.search_post SETTINGS connection text kw log
        = (Raise (TypeError msg), log))
  /\ accepts InstagramSearch.keywords [("username_owner", v)] = false
  /\ accepts InstagramSearch.keywords [("username_timeline", v)] = false
  /\ accepts TwitterSearch.keywords [("username", v)] = false.
Proof.
  repeat split; try reflexivity.
  - intros H. eexists.
    unfold TwitterSearch.search_post, BaseSearch.search_post, bind.
    rewrite twitter_search_post_closed, H. reflexivity.
  - intros H. eexists.
    unfold InstagramSearch.search_post, BaseSearch.search_post, bind.
    rewrite instagram_search_post_closed, H. reflexivity.
Qed.

Lemma search_post_unknown_keyword_witness :
  exists msg,
    InstagramSearch.search_post Fixture.settings Fixture.engine
      (PStr "new car") [("username_owner", PStr "bob")] []
    = (Raise (TypeError msg), []).
Proof.
  apply (proj1 (proj2 (search_post_unknown_keyword
                         Fixture.settings Fixture.engine (PStr "new car")
                         [("username_owner", PStr "bob")] [] PNone))).
  reflexivity.
Defined.

(** ** The tiers of [search_post], request by request *)

Section Tiers.

Variables (connection : Engine) (index_name : string).
Variable _search_post : pyval -> string -> kwargs -> M (list pyval).
Variables (kw : kwargs) (include_meta : pyval).
Variable request : pyval -> string -> Search.

(** The subclass sends one request per call and serializes the answer. *)
Hypothesis round_trip :
  forall text operator log,
    _search_post text operator kw log
    = (outcome (connection log (request text operator)) include_meta,
       log ++ [request text operator]).

Let post_suggest (text : pyval) : Search :=
  suggest_request index_name text (PStr "text") "phrase" "post_suggest".

(** Walks [search_post] down its tiers, one case per way a tier can end. *)
Ltac tiers text log :=
  unfold BaseSearch.search_post, BaseSearch.suggest_post, bind, ret;
  rewrite (round_trip text "and" log);
  destruct (connection log (request text "and")) as [d1|s1] eqn:A1;
  cbn [outcome];
  [destruct (BaseSearch.serialize (DslResponse d1) include_meta)
     as [[|p1 ps1]|e1] eqn:R1;
   [rewrite (round_trip text "or" (log ++ [request text "and"]));
    destruct (connection (log ++ [request text "and"])
                         (request text "or")) as [d2|s2] eqn:A2;
    cbn [outcome];
    [destruct (BaseSearch.serialize (DslResponse d2) include_meta)
       as [[|p2 ps2]|e2] eqn:R2;
     [rewrite (suggest_supported connection index_name text (PStr "text")
                                 "post_suggest" "phrase"
                                 ((log ++ [request text "and"])
                                    ++ [request text "or"])
                                 (or_introl eq_refl));
      fold (post_suggest text);
      destruct (connection ((log ++ [request text "and"])
                              ++ [request text "or"])
                           (post_suggest text)) as [d3|s3] eqn:A3;
      [destruct (dict_has "suggest" d3) eqn:S3;
       [destruct (BaseSearch.suggestion_texts "post_suggest" d3)
          as [[|c cs]|e3] eqn:T3;
        [| rewrite (round_trip c "or"
                      (((log ++ [request text "and"])
                          ++ [request text "or"]) ++ [post_suggest text]));
           destruct (connection
                       (((log ++ [request text "and"])
                           ++ [request text "or"]) ++ [post_suggest text])
                       (request c "or")) as [d4|s4] eqn:A4;
           cbn [outcome]
         |]
       |]
      |]
     | |]
    |]
   | |]
  |].

Lemma search_post_requests (text : pyval) (log : Log) :
  exists reqs,
    snd (BaseSearch.search_post connection index_name _search_post text kw
                                log) = log ++ reqs
    /\ (reqs = [request text "and"]
        \/ reqs = [request text "and"; request text "or"]
        \/ reqs = [request text "and"; request text "or"; post_suggest text]
        \/ exists candidate,
            reqs = [request text "and"; request text "or";
                    post_suggest text; request candidate "or"]).
Proof.
  tiers text log; cbn [snd fst];
    rewrite <- ?app_assoc; cbn [app];
    eexists; (split; [reflexivity|]); eauto 6.
Qed.

Lemma search_post_failure_is_last (text : pyval) (log pre post : Log)
      (r : Search) (status : Z) :
  snd (BaseSearch.search_post connection index_name _search_post text kw log)
  = log ++ pre ++ r :: post ->
  connection (log ++ pre) r = Failure status ->
  post = []
  /\ fst (BaseSearch.search_post connection index_name _search_post text kw
                                 log) = Raise (TransportError status).
Proof.
  intros Hsnd Hfail. revert Hsnd.
  tiers text log; cbn [snd fst]; rewrite <- ?app_assoc in *; cbn [app] in *;
    intros Hsnd; apply app_inv_head in Hsnd;
    destruct pre as [|x1 [|x2 [|x3 [|x4 pre']]]]; cbn [app] in Hsnd;
    inversion Hsnd; subst;
    rewrite ?app_nil_r in Hfail; cbn [app] in Hfail;
    try congruence;
    try (destruct pre'; discriminate);
    split; congruence.
Qed.

End Tiers.

Lemma search_post_of_base (c : PostSearch) (SETTINGS : Settings)
      (connection : Engine) :
  search_post_of c SETTINGS connection
  = BaseSearch.search_post connection (index_name_of c SETTINGS)
                           (_search_post_of c SETTINGS connection).
Proof. destruct c; reflexivity. Qed.

Section Subclasses.

Variables (c : PostSearch) (SETTINGS : Settings) (connection : Engine).
Variable kw : kwargs.
Hypothesis accepted : accepts (keywords_of c) kw = true.

Lemma _search_post_of_round_trip text operator log :
  _search_post_of c SETTINGS connection text operator kw log
  = (outcome (connection log (build_search_of c SETTINGS text operator kw))
             (kwarg "include_meta" (PBool false) kw),
     log ++ [build_search_of c SETTINGS text operator kw]).
Proof.
  destruct c; simpl in *.
  - now rewrite twitter_search_post_closed, accepted.
  - now rewrite instagram_search_post_closed, accepted.
Qed.

(** X4.  With accepted keywords, one [search_post] of either class sends
    between one and four requests and no other: the strict query, then the
    relaxed query, then the phrase suggestion for the text, then the
    relaxed query on one candidate, stopping after any of them. *)
Theorem search_post_sends_escalation (text : pyval) (log : Log) :
  exists reqs,
    snd (search_post_of c SETTINGS connection text kw log) = log ++ reqs
    /\ (1 <= length reqs <= 4)%nat
    /\ escalation (fun t o => build_search_of c SETTINGS t o kw)
                  (post_suggest_request (index_name_of c SETTINGS) text)
                  text reqs.
Proof.
  rewrite search_post_of_base.
  destruct (search_post_requests
              connection (index_name_of c SETTINGS)
              (_search_post_of c SETTINGS connection) kw
              (kwarg "include_meta" (PBool false) kw)
              (fun t o => build_search_of c SETTINGS t o kw)
              _search_post_of_round_trip text log)
    as (reqs & Hsnd & Hreqs).
  exists reqs. split; [exact Hsnd|]. split; [|exact Hreqs].
  destruct Hreqs as [-> | [-> | [-> | [cand ->]]]]; simpl; lia.
Qed.

(** X5.  No tier swallows a failure of the engine: when the engine fails on
    a request that [search_post] sent, that request is the last one sent
    and [search_post] raises the [TransportError] of that failure. *)
Theorem search_post_stops_at_failure (text : pyval) (log pre post : Log)
        (r : Search) (status : Z) :
  snd (search_post_of c SETTINGS connection text kw log)
  = log ++ pre ++ r :: post ->
  connection (log ++ pre) r = Failure status ->
  post = []
  /\ fst (search_post_of c SETTINGS connection text kw log)
     = Raise (TransportError status).
Proof.
  rewrite search_post_of_base.
  apply (search_post_failure_is_last
           connection (index_name_of c SETTINGS)
           (_search_post_of c SETTINGS connection) kw
           (kwarg "include_meta" (PBool false) kw)
           (fun t o => build_search_of c SETTINGS t o kw)
           _search_post_of_round_trip).
Qed.

End Subclasses.

Lemma search_post_sends_escalation_witness :
  exists reqs,
    snd (search_post_of Twitter Fixture.settings Fixture.engine
           (PStr "hapy new yaer") [("username_owner", PStr "alice")] [])
    = [] ++ reqs
    /\ (1 <= length reqs <= 4)%nat
    /\ escalation
         (fun t o => build_search_of Twitter Fixture.settings t o
                       [("username_owner", PStr "alice")])
         (post_suggest_request (index_name_of Twitter Fixture.settings)
                               (PStr "hapy new yaer"))
         (PStr "hapy new yaer") reqs.
Proof.
  apply (search_post_sends_escalation
           Twitter Fixture.settings Fixture.engine
           [("username_owner", PStr "alice")] eq_refl
           (PStr "hapy new yaer") []).
Defined.

Lemma search_post_stops_at_failure_witness :
  @nil Search = []
  /\ fst (search_post_of Twitter Fixture.settings Outage.engine
            (PStr "new yaer") [] [])
     = Raise (TransportError 503).
Proof.
  apply (search_post_stops_at_failure
           Twitter Fixture.settings Outage.engine [] eq_refl
           (PStr "new yaer") []
           [TwitterSearch.build_search Fixture.settings (PStr "new yaer")
                                       "and" []]
           []
           (TwitterSearch.build_search Fixture.settings (PStr "new yaer")
                                       "or" [])
           503); reflexivity.
Defined.

(** ** The size cap on the result *)

Section Cap.

Variables (connection : Engine) (index_name : string).
Variable _search_post : pyval -> string -> kwargs -> M (list pyval).
Variables (kw : kwargs) (n : Z).

Hypothesis capped :
  forall text operator log posts log',
    _search_post text operator kw log = (Ok posts, log') ->
    Z.of_nat (length posts) <= n.

Lemma search_post_capped text log posts log' :
  BaseSearch.search_post connection index_name _search_post text kw log
  = (Ok posts, log') ->
  Z.of_nat (length posts) <= n.
Proof.
  unfold BaseSearch.search_post, BaseSearch.suggest_post, bind, ret.
  destruct (_search_post text "and" kw log) as [[[|p1 ps1]|e1] l1] eqn:E1;
    [| intros H; injection H as <- _; exact (capped _ _ _ _ _ E1)
     | discriminate].
  pose proof (capped _ _ _ _ _ E1) as Hzero.
  destruct (_search_post text "or" kw l1) as [[[|p2 ps2]|e2] l2] eqn:E2;
    [| intros H; injection H as <- _; exact (capped _ _ _ _ _ E2)
     | discriminate].
  destruct (BaseSearch.suggest _ _ _ _ _ _ l2) as [[[|c cs]|e3] l3];
    [ intros H; injection H as <- _; exact Hzero
    | intros H; exact (capped _ _ _ _ _ H)
    | discriminate ].
Qed.

End Cap.

Lemma build_search_of_size_cap (c : PostSearch) (SETTINGS : Settings)
      text operator kw n :
  kwarg "search_size" (PInt 5) kw = PInt n ->
  size_cap (build_search_of c SETTINGS text operator kw) = Some n.
Proof.
  intros Hn.
  destruct c; unfold build_search_of, TwitterSearch.build_search,
                     InstagramSearch.build_search, size_cap;
    rewrite build_params, dict_get_set_same; now rewrite Hn.
Qed.

Lemma _search_post_of_capped (c : PostSearch) (SETTINGS : Settings)
      (connection : Engine) kw n text operator log posts log' :
  honours_size connection ->
  kwarg "search_size" (PInt 5) kw = PInt n ->
  _search_post_of c SETTINGS connection text operator kw log
  = (Ok posts, log') ->
  Z.of_nat (length posts) <= n.
Proof.
  intros Hengine Hn.
  assert (Hclosed :
            _search_post_of c SETTINGS connection text operator kw log
            = if accepts (keywords_of c) kw then
                (outcome (connection log (build_search_of c SETTINGS text
                                                          operator kw))
                         (kwarg "include_meta" (PBool false) kw),
                 log ++ [build_search_of c SETTINGS text operator kw])
              else
                (Raise (TypeError
                          "_search_post() got an unexpected keyword argument"),
                 log)).
  { destruct c; [apply twitter_search_post_closed
                | apply instagram_search_post_closed]. }
  rewrite Hclosed.
  destruct (accepts (keywords_of c) kw); [|discriminate].
  destruct (connection log _) as [d|status] eqn:Hans; [|discriminate].
  destruct (Hengine _ _ _ Hans) as (hits & Hhits & Hcap).
  specialize (Hcap n (build_search_of_size_cap _ _ _ _ _ _ Hn)).
  cbn [outcome]. rewrite (serialize_dsl d hits) by exact Hhits.
  intros H. injection H as H _.
  apply comprehension_Ok_Forall2 in H. apply Forall2_length in H.
  rewrite <- H. exact Hcap.
Qed.

(** X6.  With an engine that honours the [size] parameter, the list
    [search_post] returns, from whichever tier it comes, has at most
    [search_size] records, 5 when the keyword is absent. *)
Theorem search_post_respects_size (c : PostSearch) (SETTINGS : Settings)
        (connection : Engine) (kw : kwargs) (n : Z) (text : pyval)
        (log : Log) (posts : list pyval) (log' : Log) :
  honours_size connection ->
  kwarg "search_size" (PInt 5) kw = PInt n ->
  search_post_of c SETTINGS connection text kw log = (Ok posts, log') ->
  Z.of_nat (length posts) <= n.
Proof.
  intros Hengine Hn. rewrite search_post_of_base. intros H.
  apply (search_post_capped connection (index_name_of c SETTINGS)
                            (_search_post_of c SETTINGS connection) kw n)
    with (text := text) (log := log) (log' := log'); [|exact H].
  intros t o l ps l'. now apply _search_post_of_capped.
Qed.

Lemma hits_of_response_of (hits : list pydict) :
  hits_of (Fixture.response_of hits) = Some hits.
Proof.
  unfold hits_of, Fixture.response_of. cbn [dict_get String.eqb Ascii.eqb
                                            Bool.eqb].
  induction hits as [|h hits IH]; simpl; [reflexivity|].
  now rewrite IH.
Qed.

Lemma capped_engine_honours_size : honours_size Capped.engine.
Proof.
  intros log s d. unfold Capped.engine.
  destruct (size_cap s) as [n|] eqn:Hs.
  - destruct (n <? 0) eqn:Hneg; [discriminate|].
    intros H. injection H as <-.
    eexists. split; [apply hits_of_response_of|].
    intros n' Hn'. injection Hn' as <-.
    apply Z.ltb_ge in Hneg.
    pose proof (firstn_le_length (Z.to_nat n)
                  [Fixture.hit1; Fixture.hit2; Fixture.hit1]) as Hlen.
    pose proof (length_firstn (Z.to_nat n)
                  [Fixture.hit1; Fixture.hit2; Fixture.hit1]) as Hmin.
    lia.
  - intros H. injection H as <-.
    exists []. split; [reflexivity|]. discriminate.
Qed.

Lemma search_post_respects_size_witness :
  Z.of_nat (length [PDict (Fixture.tweet "1" "happy new year" "alice");
                    PDict (Fixture.tweet "2" "new car" "bob")]) <= 2.
Proof.
  apply (search_post_respects_size
           Twitter Fixture.settings Capped.engine
           [("search_size", PInt 2)] 2 (PStr "anything") []
           [PDict (Fixture.tweet "1" "happy new year" "alice");
            PDict (Fixture.tweet "2" "new car" "bob")]
           [TwitterSearch.build_search Fixture.settings (PStr "anything")
                                       "and" [("search_size", PInt 2)]]
           capped_engine_honours_size eq_refl eq_refl).
Defined.

(** ** An index without documents *)

(** X7.  On an engine that finds nothing and answers a suggest request
    without a suggest section, as it does for an index that holds no
    document, [search_post] of either class does not return the empty list:
    it goes through the strict query, the relaxed query and the suggestion,
    and raises [NotImplementedError]. *)
Theorem search_post_empty_index (c : PostSearch) (SETTINGS : Settings)
        (connection : Engine) (kw : kwargs) (text : pyval) (log : Log) :
  accepts (keywords_of c) kw = true ->
  (forall log' s,
      exists d, connection log' s = Answer d
                /\ hits_of d = Some []
                /\ dict_has "suggest" d = false) ->
  search_post_of c SETTINGS connection text kw log
  = (Raise NotImplementedError,
     log ++ [build_search_of c SETTINGS text "and" kw;
             build_search_of c SETTINGS text "or" kw;
             post_suggest_request (index_name_of c SETTINGS) text]).
Proof.
  intros Hacc Hempty.
  rewrite search_post_of_base.
  unfold BaseSearch.search_post, BaseSearch.suggest_post, bind.
  rewrite (_search_post_of_round_trip c SETTINGS connection kw Hacc).
  destruct (Hempty log (build_search_of c SETTINGS text "and" kw))
    as (d1 & -> & Hh1 & _).
  cbn [outcome]. rewrite (serialize_dsl d1 []) by exact Hh1.
  cbn [comprehension].
  rewrite (_search_post_of_round_trip c SETTINGS connection kw Hacc).
  destruct (Hempty (log ++ [build_search_of c SETTINGS text "and" kw])
                   (build_search_of c SETTINGS text "or" kw))
    as (d2 & -> & Hh2 & _).
  cbn [outcome]. rewrite (serialize_dsl d2 []) by exact Hh2.
  cbn [comprehension].
  rewrite (suggest_supported connection (index_name_of c SETTINGS) text
                             (PStr "text") "post_suggest" "phrase" _
                             (or_introl eq_refl)).
  fold (post_suggest_request (index_name_of c SETTINGS) text).
  destruct (Hempty ((log ++ [build_search_of c SETTINGS text "and" kw])
                      ++ [build_search_of c SETTINGS text "or" kw])
                   (post_suggest_request (index_name_of c SETTINGS) text))
    as (d3 & -> & _ & ->).
  rewrite <- !app_assoc. reflexivity.
Qed.

Lemma search_post_empty_index_witness :
  search_post_of Instagram Fixture.settings Fixture.empty_index_engine
                 (PStr "new car") [] []
  = (Raise NotImplementedError,
     [] ++ [build_search_of Instagram Fixture.settings (PStr "new car")
                            "and" [];
            build_search_of Instagram Fixture.settings (PStr "new car")
                            "or" [];
            post_suggest_request (index_name_of Instagram Fixture.settings)
                                 (PStr "new car")]).
Proof.
  apply (search_post_empty_index
           Instagram Fixture.settings Fixture.empty_index_engine []
           (PStr "new car") [] eq_refl).
  intros log' s. exists (Fixture.response_of []).
  repeat split.
Defined.

(** ** The normalizer on responses it cannot convert *)

Lemma comprehension_sources (hits : list pydict) (include_meta : pyval) :
  truthy include_meta = false ->
  comprehension
    (fun hit => BaseSearch._hit_conversor (PDict hit) include_meta) hits
  = if forallb (dict_has "_source") hits
    then Ok (map body_of hits)
    else Raise (KeyError "_source").
Proof.
  intros Hm. induction hits as [|hit hits IH]; [reflexivity|].
  cbn [comprehension forallb map].
  rewrite _hit_conversor_dict. unfold record_of. rewrite Hm.
  destruct (dict_get "_source" hit) as [b|] eqn:Hb.
  - assert (Hhas : dict_has "_source" hit = true)
      by (unfold dict_has; now rewrite Hb).
    assert (Hbody : body_of hit = b) by (unfold body_of; now rewrite Hb).
    rewrite Hhas, Hbody, IH. cbn [andb].
    destruct (forallb (dict_has "_source") hits); reflexivity.
  - assert (Hhas : dict_has "_source" hit = false)
      by (unfold dict_has; now rewrite Hb).
    now rewrite Hhas.
Qed.

(** X8.  [serialize] is all or nothing, in both shapes.  A response with no
    [hits] key raises [KeyError].  With a falsy [include_meta], the bodies
    of all the hits are returned when every hit has a [_source]; one hit
    without it makes the call raise [KeyError], whatever the other hits
    hold: the hit is not skipped and no partial list is returned. *)
Theorem serialize_all_or_nothing (dsl : bool) (d : pydict)
        (include_meta : pyval) :
  (dict_get "hits" d = None ->
   BaseSearch.serialize (shape_of dsl d) include_meta
   = Raise (KeyError "hits"))
  /\ (forall hits,
        hits_of d = Some hits ->
        truthy include_meta = false ->
        BaseSearch.serialize (shape_of dsl d) include_meta
        = if forallb (dict_has "_source") hits
          then Ok (map body_of hits)
          else Raise (KeyError "_source")).
Proof.
  split.
  - intros H. destruct dsl; unfold shape_of, BaseSearch.serialize;
      cbn [wrapped_getitem py_getitem]; now rewrite H.
  - intros hits Hd Hm. rewrite (serialize_shape dsl d hits) by exact Hd.
    now apply comprehension_sources.
Qed.

Lemma serialize_all_or_nothing_witness :
  BaseSearch.serialize
    (shape_of true
       (Fixture.response_of
          [Fixture.hit1; [("_index", PStr "twitter"); ("_id", PStr "9")];
           Fixture.hit2]))
    (PBool false)
  = Raise (KeyError "_source").
Proof.
  apply (proj2 (serialize_all_or_nothing
                  true
                  (Fixture.response_of
                     [Fixture.hit1;
                      [("_index", PStr "twitter"); ("_id", PStr "9")];
                      Fixture.hit2])
                  (PBool false))
               [Fixture.hit1; [("_index", PStr "twitter"); ("_id", PStr "9")];
                Fixture.hit2]);
    reflexivity.
Defined.

Lemma comprehension_Ok_id (l : list pyval) :
  comprehension (fun hit : pyval => Ok hit) l = Ok l.
Proof.
  induction l as [|x l IH]; simpl; [reflexivity|]. now rewrite IH.
Qed.

Lemma comprehension_to_dict (l : list pyval) :
  comprehension wrapped_to_dict (map _wrap l)
  = match all_dicts l with
    | Some _ => Ok l
    | None => Raise (AttributeError "to_dict")
    end.
Proof.
  induction l as [|x l IH]; [reflexivity|].
  cbn [map comprehension all_dicts].
  destruct x; try reflexivity.
  cbn [_wrap wrapped_to_dict]. rewrite IH.
  destruct (all_dicts l); reflexivity.
Qed.

(** X9.  The two shapes part on a hit that is no mapping.  With a truthy
    [include_meta], [serialize] on the raw dict hands the hit list back as
    it is, while on the DSL [Response] it raises [AttributeError] as soon as
    one hit is not a mapping, and returns the same list otherwise. *)
Theorem serialize_non_mapping_hits (d h : pydict) (l : list pyval)
        (include_meta : pyval) :
  dict_get "hits" d = Some (PDict h) ->
  dict_get "hits" h = Some (PList l) ->
  truthy include_meta = true ->
  BaseSearch.serialize (RawMapping d) include_meta = Ok l
  /\ BaseSearch.serialize (DslResponse d) include_meta
     = match all_dicts l with
       | Some _ => Ok l
       | None => Raise (AttributeError "to_dict")
       end.
Proof.
  intros Hd Hh Hm.
  unfold BaseSearch.serialize, BaseSearch._hit_conversor,
         BaseSearch._hit_dsl_conversor.
  cbn [wrapped_getitem py_getitem]. rewrite Hd, Hm.
  cbn [rbind _wrap wrapped_getitem py_getitem]. rewrite Hh.
  cbn [rbind _wrap wrapped_iter py_iter].
  split; [apply comprehension_Ok_id|].
  rewrite <- comprehension_to_dict.
  apply comprehension_ext. reflexivity.
Qed.

Lemma serialize_non_mapping_hits_witness :
  BaseSearch.serialize
    (RawMapping [("hits", PDict [("hits", PList [PStr "1"; PInt 2])])])
    (PBool true)
  = Ok [PStr "1"; PInt 2]
  /\ BaseSearch.serialize
       (DslResponse [("hits", PDict [("hits", PList [PStr "1"; PInt 2])])])
       (PBool true)
     = Raise (AttributeError "to_dict").
Proof.
  apply (serialize_non_mapping_hits
           [("hits", PDict [("hits", PList [PStr "1"; PInt 2])])]
           [("hits", PList [PStr "1"; PInt 2])]
           [PStr "1"; PInt 2] (PBool true)); reflexivity.
Defined.

(** ** The resolver on the suggest section *)

(** X10.  What [suggest] makes of the suggest section of an answer, on a
    supported kind: an entry whose option list is empty gives the empty
    list; a section that does not list the request's name raises
    [KeyError]; an empty list under the name raises [IndexError]; a first
    entry without [options] raises [AttributeError]. *)
Theorem suggest_section_edges
        (connection : Engine) (index_name : string)
        (text field_name : pyval) (kind suggestion_name : string)
        (log : Log) (d sug : pydict) :
  kind = "phrase" \/ kind = "term" ->
  connection log (suggest_request index_name text field_name kind
                                  suggestion_name) = Answer d ->
  dict_get "suggest" d = Some (PDict sug) ->
  (forall entry rest,
      dict_get suggestion_name sug = Some (PList (PDict entry :: rest)) ->
      dict_get "options" entry = Some (PList []) ->
      fst (BaseSearch.suggest connection index_name text field_name
                              (PStr kind) suggestion_name log) = Ok [])
  /\ (dict_get suggestion_name sug = None ->
      fst (BaseSearch.suggest connection index_name text field_name
                              (PStr kind) suggestion_name log)
      = Raise (KeyError suggestion_name))
  /\ (dict_get suggestion_name sug = Some (PList []) ->
      fst (BaseSearch.suggest connection index_name text field_name
                              (PStr kind) suggestion_name log)
      = Raise IndexError)
  /\ (forall entry rest,
        dict_get suggestion_name sug = Some (PList (PDict entry :: rest)) ->
        dict_get "options" entry = None ->
        fst (BaseSearch.suggest connection index_name text field_name
                                (PStr kind) suggestion_name log)
        = Raise (AttributeError "options")).
Proof.
  intros Hk Hans Hsug.
  rewrite (suggest_supported connection index_name text field_name
                             suggestion_name kind log Hk), Hans.
  cbn [fst]. unfold dict_has. rewrite Hsug.
  unfold BaseSearch.suggestion_texts.
  cbn [wrapped_getattr]. rewrite Hsug.
  cbn [rbind _wrap wrapped_getitem].
  repeat split.
  - intros entry rest Hname Hopts. rewrite Hname.
    cbn [rbind _wrap wrapped_getitem0 wrapped_getattr]. rewrite Hopts.
    reflexivity.
  - intros Hname. now rewrite Hname.
  - intros Hname. now rewrite Hname.
  - intros entry rest Hname Hopts. rewrite Hname.
    cbn [rbind _wrap wrapped_getitem0 wrapped_getattr]. now rewrite Hopts.
Qed.

Lemma suggest_section_edges_witness :
  fst (BaseSearch.suggest Fixture.engine "twitter" (PStr "zzz") (PStr "text")
                          (PStr "phrase") "post_suggest" [])
  = Ok [].
Proof.
  eapply (proj1 (suggest_section_edges
                   Fixture.engine "twitter" (PStr "zzz") (PStr "text")
                   "phrase" "post_suggest" []
                   (Fixture.suggest_response "post_suggest" "zzz" [])
                   _ (or_introl eq_refl) eq_refl eq_refl));
    reflexivity.
Defined.

(** * Properties of [exc.py] *)

(** ** [str.replace] *)

Lemma string_append_assoc (s t u : string) :
  ((s ++ t) ++ u)%string = (s ++ t ++ u)%string.
Proof. induction s as [|a s IH]; simpl; [reflexivity|]. now rewrite IH. Qed.

Lemma occurs_append (c : ascii) (s t : string) :
  occurs c (s ++ t) = occurs c s || occurs c t.
Proof.
  induction s as [|a s IH]; simpl; [reflexivity|].
  rewrite IH. apply orb_assoc.
Qed.

Lemma prefix_occurs (c : ascii) (old t : string) :
  String.prefix old t = true -> occurs c old = true -> occurs c t = true.
Proof.
  revert t. induction old as [|a old IH]; intros t Hp Ho;
    [discriminate Ho|].
  destruct t as [|b t]; [discriminate Hp|].
  simpl in Hp. destruct (ascii_dec a b) as [->|]; [|discriminate Hp].
  simpl in *. destruct (Ascii.eqb c b); [reflexivity|].
  simpl in *. now apply IH.
Qed.

Lemma prefix_append (old s : string) : String.prefix old (old ++ s) = true.
Proof.
  induction old as [|a old IH]; simpl; [now destruct s|].
  destruct (ascii_dec a a); [exact IH|contradiction].
Qed.

(** A pattern with a character the string lacks occurs nowhere in it. *)
Lemma replace_from_absent (c : ascii) (old new s : string) :
  occurs c old = true -> occurs c s = false ->
  replace_from old new 0 s = s.
Proof.
  intros Ho. induction s as [|a s IH]; intros Hs; [reflexivity|].
  cbn [replace_from].
  destruct (String.prefix old (String a s)) eqn:Hp.
  - apply (prefix_occurs c) in Hp; congruence.
  - simpl in Hs. apply orb_false_iff in Hs as [_ Hs]. now rewrite IH.
Qed.

Lemma str_replace_absent (c : ascii) (old new s : string) :
  occurs c old = true -> occurs c s = false -> str_replace old new s = s.
Proof.
  destruct old; [discriminate|]. apply replace_from_absent.
Qed.

Lemma replace_from_skip (old new t s : string) :
  replace_from old new (String.length t) (t ++ s) = replace_from old new 0 s.
Proof.
  induction t as [|a t IH]; simpl; [|exact IH].
  destruct s; reflexivity.
Qed.

Lemma replace_from_match (c : ascii) (old' new s : string) :
  replace_from (String c old') new 0 (String c old' ++ s)
  = (new ++ replace_from (String c old') new 0 s)%string.
Proof.
  change (String c old' ++ s)%string with (String c (old' ++ s)).
  cbn [replace_from].
  change (String c (old' ++ s)) with (String c old' ++ s)%string.
  rewrite prefix_append.
  cbn [String.length]. rewrite Nat.sub_1_r. cbn [Nat.pred].
  now rewrite replace_from_skip.
Qed.

Lemma replace_from_before (c : ascii) (old' new pre s : string) :
  occurs c pre = false ->
  replace_from (String c old') new 0 (pre ++ s)
  = (pre ++ replace_from (String c old') new 0 s)%string.
Proof.
  induction pre as [|a pre IH]; intros Hpre; [reflexivity|].
  simpl in Hpre. apply orb_false_iff in Hpre as [Hca Hpre].
  apply Ascii.eqb_neq in Hca.
  change (String a pre ++ s)%string with (String a (pre ++ s)).
  cbn [replace_from String.prefix].
  destruct (ascii_dec c a) as [Heq|_]; [contradiction|].
  rewrite IH by exact Hpre. reflexivity.
Qed.

(** ** The message of an exception *)

Section Message.

Variable py_str : pyval -> string.

(** X11.  The message of an exception whose template has one placeholder
    [{key}] and whose context gives that key: when neither the text around
    the placeholder nor the rendering of the value holds a brace, the
    message is the template with the rendering in the place of the
    placeholder. *)
Theorem error_message_fills_placeholder (pre key post : string)
        (value : pyval) :
  occurs "{" pre = false -> occurs "}" pre = false ->
  occurs "{" post = false -> occurs "}" post = false ->
  occurs "{" (py_str value) = false -> occurs "}" (py_str value) = false ->
  ElastingaErrorMixin.__str__ py_str (pre ++ "{" ++ key ++ "}" ++ post)
                              [(key, value)]
  = (pre ++ py_str value ++ post)%string.
Proof.
  intros Hpre1 Hpre2 Hpost1 Hpost2 Hv1 Hv2.
  unfold ElastingaErrorMixin.__str__. cbn [fold_left fst snd].
  assert (Hfill :
            str_replace ("{" ++ key ++ "}") (py_str value)
                        (pre ++ "{" ++ key ++ "}" ++ post)
            = (pre ++ py_str value ++ post)%string).
  { change ("{" ++ key ++ "}")%string with (String "{" (key ++ "}")).
    replace (pre ++ "{" ++ key ++ "}" ++ post)%string
      with (pre ++ (String "{" (key ++ "}") ++ post))%string
      by (simpl; now rewrite string_append_assoc).
    cbn [str_replace].
    rewrite replace_from_before by exact Hpre1.
    rewrite replace_from_match.
    rewrite (replace_from_absent "{") by (exact Hpost1 || reflexivity).
    reflexivity. }
  rewrite Hfill.
  assert (Hopen : occurs "{" (pre ++ py_str value ++ post)%string = false)
    by (rewrite !occurs_append, Hpre1, Hv1, Hpost1; reflexivity).
  assert (Hclose : occurs "}" (pre ++ py_str value ++ post)%string = false)
    by (rewrite !occurs_append, Hpre2, Hv2, Hpost2; reflexivity).
  rewrite (str_replace_absent "{" "`{" "" _ eq_refl Hopen).
  exact (str_replace_absent "}" "}`" "" _ eq_refl Hclose).
Qed.

(** X12.  A template without braces is the message, whatever the context
    holds: context values with no placeholder are ignored. *)
Theorem error_message_without_placeholder (msg_template : string)
        (ctx : pydict) :
  occurs "{" msg_template = false -> occurs "}" msg_template = false ->
  ElastingaErrorMixin.__str__ py_str msg_template ctx = msg_template.
Proof.
  intros H1 H2. unfold ElastingaErrorMixin.__str__.
  assert (Hfold :
            fold_left
              (fun txt kv =>
                 str_replace ("{" ++ fst kv ++ "}") (py_str (snd kv)) txt)
              ctx msg_template = msg_template).
  { induction ctx as [|kv ctx IH]; [reflexivity|].
    cbn [fold_left].
    rewrite (str_replace_absent "{" ("{" ++ fst kv ++ "}") _ _ eq_refl H1).
    exact IH. }
  rewrite Hfold.
  rewrite (str_replace_absent "{" "`{" "" _ eq_refl H1).
  exact (str_replace_absent "}" "}`" "" _ eq_refl H2).
Qed.

End Message.

Lemma error_message_fills_placeholder_witness :
  ElastingaErrorMixin.__str__ str_of_text IndexNotExists.msg_template
                              [("index", PStr "tweets")]
  = "El índice tweets no existe".
Proof.
  apply (error_message_fills_placeholder
           str_of_text "El índice " "index" " no existe" (PStr "tweets"));
    reflexivity.
Defined.

Lemma error_message_without_placeholder_witness :
  ElastingaErrorMixin.__str__ str_of_text ElasticsearchNotReady.msg_template
                              [("index", PStr "tweets")]
  = ElasticsearchNotReady.msg_template.
Proof.
  apply (error_message_without_placeholder
           str_of_text ElasticsearchNotReady.msg_template
           [("index", PStr "tweets")]); reflexivity.
Defined.

(** * Properties of [connection.py] *)

Section ConnectionFacts.

Import ElasticSearchConnection.

Lemma keywords_get_set_same (k : string) (v : value) (kw : keywords) :
  get k (set k v kw) = Some v.
Proof.
  induction kw as [|[k' v'] kw IH]; simpl.
  - now rewrite String.eqb_refl.
  - destruct (String.eqb k k') eqn:E; simpl; rewrite E; auto.
Qed.

Lemma keywords_get_set_other (k k' : string) (v : value) (kw : keywords) :
  k <> k' -> get k (set k' v kw) = get k kw.
Proof.
  intros Hne. induction kw as [|[k0 v0] kw IH]; simpl.
  - apply String.eqb_neq in Hne. now rewrite Hne.
  - destruct (String.eqb k' k0) eqn:E; simpl.
    + apply String.eqb_eq in E. subst k0.
      apply String.eqb_neq in Hne. now rewrite Hne.
    + now rewrite IH.
Qed.

Lemma get_setdefault_same (k : string) (v : value) (kw : keywords) :
  get k (setdefault k v kw)
  = match get k kw with Some x => Some x | None => Some v end.
Proof.
  unfold setdefault. destruct (get k kw) eqn:E; [exact E|].
  apply keywords_get_set_same.
Qed.

Lemma get_setdefault_other (k k' : string) (v : value) (kw : keywords) :
  k <> k' -> get k (setdefault k' v kw) = get k kw.
Proof.
  intros Hne. unfold setdefault. destruct (get k' kw); [reflexivity|].
  now apply keywords_get_set_other.
Qed.

Lemma get_setdefault_keeps (k k' : string) (v d : value) (kw : keywords) :
  get k kw = Some v -> get k (setdefault k' d kw) = Some v.
Proof.
  intros H. destruct (String.eqb_spec k k') as [->|Hne].
  - now rewrite get_setdefault_same, H.
  - now rewrite get_setdefault_other.
Qed.

Lemma get_without (k : string) (names : list string) (kw : keywords) :
  get k (without names kw)
  = if existsb (String.eqb k) names then None else get k kw.
Proof.
  unfold without. induction kw as [|[k' v'] kw IH]; simpl.
  - now destruct (existsb (String.eqb k) names).
  - destruct (String.eqb k k') eqn:E.
    + apply String.eqb_eq in E. subst k'.
      destruct (existsb (String.eqb k) names); simpl; [exact IH|].
      now rewrite String.eqb_refl.
    + destruct (existsb (String.eqb k') names); simpl; [exact IH|].
      now rewrite E.
Qed.

(** The keywords [__init__] stores when it returns. *)
Lemma init_returns (SETTINGS : Settings) (env : Environment)
      (call kw : keywords) :
  __init__ SETTINGS env call = Return kw ->
  exists async,
    kw = setdefault "transport_class" (TransportClass async)
        (setdefault "ca_certs" (Py (PStr (CA_CERTS env)))
        (setdefault "verify_certs" (Py (PBool true))
        (setdefault "hosts" (Py (PList [PStr (ELASTICSEARCH_HOST SETTINGS)]))
        (setdefault "alias"
           (match get "alias" call with
            | Some a => a
            | None => Py (PStr "default")
            end)
           (match ELASTICSEARCH_SSL_CERT_PATH SETTINGS with
            | Some path =>
                set "ssl_context" (SslContext path)
                    (without ["alias"; "transport_type"] call)
            | None => without ["alias"; "transport_type"] call
            end))))).
Proof.
  unfold __init__.
  destruct (negb (py_in_strs _ _)); [discriminate|].
  destruct (_ && negb _); [discriminate|].
  destruct (given _ && given _); [discriminate|].
  destruct (ELASTICSEARCH_SSL_CERT_PATH SETTINGS) as [path|].
  - destruct (loads_cafile env path); [|discriminate].
    intros H. injection H as <-. eexists. reflexivity.
  - intros H. injection H as <-. eexists. reflexivity.
Qed.

(** X13.  What a connection is created with, when [__init__] returns.  A
    keyword of the caller is never replaced by a default: [hosts],
    [verify_certs], [ca_certs] and [transport_class] get the host of the
    settings, True, the certifi bundle and the transport class only when the
    caller left them out.  A certificate path in the settings replaces any
    [ssl_context] of the caller.  No other keyword is added: in particular
    the settings never put [http_auth] or [scheme] there. *)
Theorem init_keeps_caller_keywords (SETTINGS : Settings) (env : Environment)
        (call kw : keywords) :
  __init__ SETTINGS env call = Return kw ->
  (forall k v,
      k <> "alias" -> k <> "transport_type" -> k <> "ssl_context" ->
      get k call = Some v -> get k kw = Some v)
  /\ (get "hosts" call = None ->
      get "hosts" kw = Some (Py (PList [PStr (ELASTICSEARCH_HOST SETTINGS)])))
  /\ (get "verify_certs" call = None ->
      get "verify_certs" kw = Some (Py (PBool true)))
  /\ (get "ca_certs" call = None ->
      get "ca_certs" kw = Some (Py (PStr (CA_CERTS env))))
  /\ (get "transport_class" call = None ->
      exists async, get "transport_class" kw = Some (TransportClass async))
  /\ get "alias" kw
     = Some (match get "alias" call with
             | Some a => a
             | None => Py (PStr "default")
             end)
  /\ get "ssl_context" kw
     = match ELASTICSEARCH_SSL_CERT_PATH SETTINGS with
       | Some path => Some (SslContext path)
       | None => get "ssl_context" call
       end
  /\ get "http_auth" kw = get "http_auth" call
  /\ get "scheme" kw = get "scheme" call.
Proof.
  intros (async & ->)%init_returns.
  assert (Hbase :
            forall k, k <> "alias" -> k <> "transport_type" ->
                      k <> "ssl_context" ->
                      get k (match ELASTICSEARCH_SSL_CERT_PATH SETTINGS with
                             | Some path =>
                                 set "ssl_context" (SslContext path)
                                     (without ["alias"; "transport_type"]
                                              call)
                             | None =>
                                 without ["alias"; "transport_type"] call
                             end)
                      = get k call).
  { intros k Ha Ht Hs.
    assert (Hw : get k (without ["alias"; "transport_type"] call)
                 = get k call).
    { rewrite get_without. simpl.
      apply String.eqb_neq in Ha, Ht. now rewrite Ha, Ht. }
    destruct (ELASTICSEARCH_SSL_CERT_PATH SETTINGS);
      [rewrite keywords_get_set_other by exact Hs|]; exact Hw. }
  repeat split.
  - intros k v Ha Ht Hs Hv.
    assert (Hin : get k (match ELASTICSEARCH_SSL_CERT_PATH SETTINGS with
                         | Some path =>
                             set "ssl_context" (SslContext path)
                                 (without ["alias"; "transport_type"] call)
                         | None => without ["alias"; "transport_type"] call
                         end) = Some v)
      by (now rewrite Hbase).
    do 5 apply get_setdefault_keeps. exact Hin.
  - intros Hnone.
    rewrite !(get_setdefault_other "hosts") by discriminate.
    rewrite get_setdefault_same, get_setdefault_other by discriminate.
    rewrite Hbase by discriminate. now rewrite Hnone.
  - intros Hnone.
    rewrite !(get_setdefault_other "verify_certs") by discriminate.
    rewrite get_setdefault_same, !get_setdefault_other by discriminate.
    rewrite Hbase by discriminate. now rewrite Hnone.
  - intros Hnone.
    rewrite !(get_setdefault_other "ca_certs") by discriminate.
    rewrite get_setdefault_same, !get_setdefault_other by discriminate.
    rewrite Hbase by discriminate. now rewrite Hnone.
  - intros Hnone. exists async.
    rewrite get_setdefault_same, !get_setdefault_other by discriminate.
    rewrite Hbase by discriminate. now rewrite Hnone.
  - rewrite !(get_setdefault_other "alias") by discriminate.
    rewrite get_setdefault_same.
    assert (Hno : get "alias"
                      (match ELASTICSEARCH_SSL_CERT_PATH SETTINGS with
                       | Some path =>
                           set "ssl_context" (SslContext path)
                               (without ["alias"; "transport_type"] call)
                       | None => without ["alias"; "transport_type"] call
                       end) = None).
    { destruct (ELASTICSEARCH_SSL_CERT_PATH SETTINGS);
        [rewrite keywords_get_set_other by discriminate|];
        now rewrite get_without. }
    now rewrite Hno.
  - rewrite !(get_setdefault_other "ssl_context") by discriminate.
    destruct (ELASTICSEARCH_SSL_CERT_PATH SETTINGS).
    + apply keywords_get_set_same.
    + now rewrite get_without.
  - rewrite !(get_setdefault_other "http_auth") by discriminate.
    now apply Hbase.
  - rewrite !(get_setdefault_other "scheme") by discriminate.
    now apply Hbase.
Qed.

(** X14.  With a user and a password in the settings, both non-empty, no
    connection object can be built: [__init__] never returns, and on a
    transport it accepts it raises the [AttributeError] of
    [get_secret_value], which a [str] setting does not have. *)
Theorem init_with_credentials_raises (SETTINGS : Settings)
        (env : Environment) (call : keywords) :
  given (ELASTICSEARCH_USER SETTINGS) = true ->
  given (ELASTICSEARCH_PASSWORD SETTINGS) = true ->
  (forall kw, __init__ SETTINGS env call <> Return kw)
  /\ (get "transport_type" call = None ->
      __init__ SETTINGS env call = Raised (AttributeError "get_secret_value"))
  /\ (get "transport_type" call = Some (Py (PStr "async")) ->
      elasticsearch_async_installed env = true ->
      __init__ SETTINGS env call = Raised (AttributeError "get_secret_value")).
Proof.
  intros Hu Hp. unfold __init__. rewrite Hu, Hp. cbn [andb].
  repeat split.
  - intros kw.
    destruct (negb (py_in_strs _ _)); [discriminate|].
    destruct (_ && negb _); discriminate.
  - intros ->. reflexivity.
  - intros -> ->. reflexivity.
Qed.

(** X15.  The transport is checked before anything else: a
    [transport_type] other than ["sync"] and ["async"] raises [ValueError]
    whatever the settings and the other keywords are, and ["async"] without
    the [elasticsearch_async] library raises [ModuleNotFoundError].  When
    [__init__] returns and the caller named no [transport_class], the class
    stored is the asynchronous one exactly for ["async"]. *)
Theorem init_checks_transport (SETTINGS : Settings) (env : Environment)
        (call : keywords) (transport_type : pyval) :
  get "transport_type" call = Some (Py transport_type) ->
  (py_in_strs transport_type ["sync"; "async"] = false ->
   __init__ SETTINGS env call
   = Raised (ValueError "`transport_type` debe ser `sync` o `async`"))
  /\ (transport_type = PStr "async" ->
      elasticsearch_async_installed env = false ->
      __init__ SETTINGS env call
      = Raised (ModuleNotFoundError "elasticsearch_async"))
  /\ (forall kw,
        __init__ SETTINGS env call = Return kw ->
        get "transport_class" call = None ->
        get "transport_class" kw
        = Some (TransportClass (py_eq_str transport_type "async"))).
Proof.
  intros Ht. repeat split.
  - intros Hbad. unfold __init__. rewrite Ht, Hbad. reflexivity.
  - intros -> Hno. unfold __init__. rewrite Ht, Hno. reflexivity.
  - intros kw Hret Hnone.
    assert (Hbase : get "transport_class"
                        (match ELASTICSEARCH_SSL_CERT_PATH SETTINGS with
                         | Some path =>
                             set "ssl_context" (SslContext path)
                                 (without ["alias"; "transport_type"] call)
                         | None => without ["alias"; "transport_type"] call
                         end) = None).
    { destruct (ELASTICSEARCH_SSL_CERT_PATH SETTINGS);
        [rewrite keywords_get_set_other by discriminate|];
        rewrite get_without; exact Hnone. }
    revert Hret. unfold __init__. rewrite Ht.
    destruct (negb (py_in_strs _ _)); [discriminate|].
    destruct (_ && negb _); [discriminate|].
    destruct (given _ && given _); [discriminate|].
    destruct (ELASTICSEARCH_SSL_CERT_PATH SETTINGS) as [path|];
      [destruct (loads_cafile env path); [|discriminate]|];
      intros H; injection H as <-;
      rewrite get_setdefault_same, !get_setdefault_other by discriminate;
      now rewrite Hbase.
Qed.

Section Lazy.

Variable handle : Type.
Variable create_connection : keywords -> outcome handle.
Variable ping : handle -> nat -> bool.
Variable indices_exists : handle -> nat -> string -> outcome bool.
Variable indices_get : handle -> nat -> string -> outcome pydict.

Let call := ElasticSearchConnection.call handle create_connection ping
                                         indices_exists indices_get.
Let calls := ElasticSearchConnection.calls handle create_connection ping
                                           indices_exists indices_get.

Lemma connection_settled (self : state handle) :
  settled handle self ->
  settled handle (snd (connection handle create_connection self))
  /\ _kwargs handle (snd (connection handle create_connection self))
     = _kwargs handle self
  /\ (forall h, _connection handle self = Some h ->
                connection handle create_connection self = (Return h, self)).
Proof.
  intros Hs. unfold connection.
  destruct (_connection handle self) as [h|] eqn:Hc.
  - split; [exact Hs|]. split; [reflexivity|].
    intros h' [= <-]. reflexivity.
  - destruct Hs as [[_ Hzero] | (h & Hh & _)]; [|congruence].
    destruct (create_connection (_kwargs handle self)) as [h|e]; simpl.
    + split; [|split; [reflexivity|discriminate]].
      right. exists h. simpl. rewrite Hzero. auto.
    + split; [|split; [reflexivity|discriminate]].
      left. auto.
Qed.

Lemma call_settled (m : method) (self : state handle) :
  settled handle self ->
  settled handle (call m self)
  /\ _kwargs handle (call m self) = _kwargs handle self
  /\ (forall h, _connection handle self = Some h ->
                _connection handle (call m self) = Some h).
Proof.
  intros Hs.
  destruct (connection_settled self Hs) as (Hs' & Hkw & Hkeep).
  unfold call, ElasticSearchConnection.call, index_names, test_connection,
         verify_index_exist, raise_unconnected.
  destruct m;
    destruct (connection handle create_connection self) as [[h|e] self']
      eqn:Hconn;
    cbn [snd fst] in *;
    (repeat split;
     [ exact Hs' || (destruct Hs' as [[? ?]|(h' & ? & ?)];
                     [left|right; exists h']; simpl; auto)
     | exact Hkw || (simpl; exact Hkw)
     | intros h0 Hh0; specialize (Hkeep h0 Hh0);
       injection Hkeep as _ <-; simpl; exact Hh0 ]).
Qed.

(** X16.  The connection is created lazily and once.  After any sequence
    of method calls on a new object, whatever they returned or raised, at
    most one connection has been created, from the keywords [__init__]
    stored, and a connection the object holds at some point is the one it
    holds after every later call. *)
Theorem connection_created_once (kw : keywords) (ms more : list method) :
  (created handle (calls ms (fresh handle kw)) <= 1)%nat
  /\ _kwargs handle (calls ms (fresh handle kw)) = kw
  /\ (forall h,
        _connection handle (calls ms (fresh handle kw)) = Some h ->
        created handle (calls ms (fresh handle kw)) = 1%nat
        /\ _connection handle (calls (ms ++ more) (fresh handle kw))
           = Some h).
Proof.
  assert (Hrun : forall ms self,
             settled handle self ->
             settled handle (calls ms self)
             /\ _kwargs handle (calls ms self) = _kwargs handle self
             /\ (forall h, _connection handle self = Some h ->
                           _connection handle (calls ms self) = Some h)).
  { induction ms0 as [|m ms0 IH]; intros self Hs.
    - split; [exact Hs|]. split; [reflexivity|]. intros h Hh. exact Hh.
    - destruct (call_settled m self Hs) as (Hs1 & Hkw1 & Hkeep1).
      destruct (IH (call m self) Hs1) as (Hs2 & Hkw2 & Hkeep2).
      change (calls (m :: ms0) self) with (calls ms0 (call m self)).
      split; [exact Hs2|]. split; [now rewrite Hkw2|].
      intros h Hh. apply Hkeep2. now apply Hkeep1. }
  assert (Hfresh : settled handle (fresh handle kw)) by (left; split; reflexivity).
  destruct (Hrun ms _ Hfresh) as (Hs & Hkw & _).
  repeat split.
  - destruct Hs as [[_ ->]|(h & _ & ->)]; lia.
  - exact Hkw.
  - destruct Hs as [[Hnone _]|(h' & _ & Hone)]; [congruence|exact Hone].
  - unfold calls, ElasticSearchConnection.calls. rewrite fold_left_app.
    destruct (Hrun more _ Hs) as (_ & _ & Hkeep).
    now apply Hkeep.
Qed.

End Lazy.

End ConnectionFacts.

Lemma init_keeps_caller_keywords_witness :
  exists kw,
    ElasticSearchConnection.__init__
      Deployment.with_certificate Deployment.environment
      [("hosts", ElasticSearchConnection.Py (PList [PStr "other:9200"]));
       ("alias", ElasticSearchConnection.Py (PStr "main"))]
    = ElasticSearchConnection.Return kw
    /\ ElasticSearchConnection.get "hosts" kw
       = Some (ElasticSearchConnection.Py (PList [PStr "other:9200"])).
Proof.
  eexists. split; [reflexivity|].
  apply (proj1 (init_keeps_caller_keywords
                  Deployment.with_certificate Deployment.environment
                  [("hosts",
                    ElasticSearchConnection.Py (PList [PStr "other:9200"]));
                   ("alias", ElasticSearchConnection.Py (PStr "main"))]
                  _ eq_refl));
    (discriminate || reflexivity).
Defined.

Lemma init_with_credentials_raises_witness :
  ElasticSearchConnection.__init__ Deployment.secured Deployment.environment
                                   []
  = ElasticSearchConnection.Raised
      (ElasticSearchConnection.AttributeError "get_secret_value").
Proof.
  apply (proj1 (proj2 (init_with_credentials_raises
                         Deployment.secured Deployment.environment []
                         eq_refl eq_refl))).
  reflexivity.
Defined.

Lemma init_checks_transport_witness :
  ElasticSearchConnection.__init__
    Deployment.secured Deployment.environment
    [("transport_type", ElasticSearchConnection.Py (PStr "grpc"))]
  = ElasticSearchConnection.Raised
      (ElasticSearchConnection.ValueError
         "`transport_type` debe ser `sync` o `async`")
  /\ ElasticSearchConnection.__init__
       Deployment.with_certificate Deployment.environment
       [("transport_type", ElasticSearchConnection.Py (PStr "async"))]
     = ElasticSearchConnection.Raised
         (ElasticSearchConnection.ModuleNotFoundError "elasticsearch_async").
Proof.
  split.
  - apply (proj1 (init_checks_transport
                    Deployment.secured Deployment.environment
                    [("transport_type",
                      ElasticSearchConnection.Py (PStr "grpc"))]
                    (PStr "grpc") eq_refl)).
    reflexivity.
  - apply (proj1 (proj2 (init_checks_transport
                           Deployment.with_certificate Deployment.environment
                           [("transport_type",
                             ElasticSearchConnection.Py (PStr "async"))]
                           (PStr "async") eq_refl)));
      reflexivity.
Defined.

Lemma connection_created_once_witness :
  (ElasticSearchConnection.created nat
     (ElasticSearchConnection.calls
        nat Deployment.create_connection Deployment.ping
        Deployment.indices_exists Deployment.indices_get
        [ElasticSearchConnection.TestConnection;
         ElasticSearchConnection.RaiseUnconnected;
         ElasticSearchConnection.VerifyIndexExist "twitter";
         ElasticSearchConnection.IndexNames]
        (ElasticSearchConnection.fresh nat [])) <= 1)%nat.
Proof.
  apply (proj1 (connection_created_once
                  nat Deployment.create_connection Deployment.ping
                  Deployment.indices_exists Deployment.indices_get []
                  [ElasticSearchConnection.TestConnection;
                   ElasticSearchConnection.RaiseUnconnected;
                   ElasticSearchConnection.VerifyIndexExist "twitter";
                   ElasticSearchConnection.IndexNames]
                  [])).
Defined.

